(** * Message Search API: the in-memory search engines

    A shallow embedding of [MessageSearchEngine.search] (main.py) and of
    [OptimizedMessageSearchEngine._build_indices] / [search_fast]
    (main_optimized.py), together with the Python primitives they rely on
    ([str.lower], [str.strip], [str.split], [in] on strings, list slicing,
    floor division, dictionaries, sets and [sorted]).

    Modelling conventions.
    - A Python [str] is a [string]; a character is a code point below 256
      (ASCII and Latin-1), on which [lower] and the whitespace class agree
      with Python's.
    - A Python [int] is a [Z]; a position produced by [enumerate] is a [nat].
    - A [dict] from [str] to a list of positions is a [gmap string (list nat)],
      a [set] of positions is a [gset nat].
    - Methods are computations in a state-and-exception monad over the
      engine object ([self]).
    - [time.perf_counter()] readings are inputs of the call, in hundredths
      of a millisecond; the rounding of the float is not modelled.
    - The upstream API read by [load_data] is an oracle that maps the
      number of the request, [skip] and [limit] to a reply; the two fetch
      loops take a bound on their iterations; the sleeps and the printing
      are left out.
    - The endpoints are computations over the module state (the global
      engine and, in main_optimized.py, [request_counter]); the constant
      fields of their replies are left out. *)

From Stdlib Require Import ZArith Ascii String.
From stdpp Require Import base option list sorting gmap strings.

Local Open Scope Z_scope.

(** ** Python string primitives *)

Module PyStr.

(** [c.isspace()] for a code point below 256 : TAB..CR, FS..US, SPACE,
    NEL (0x85) and NBSP (0xA0). *)
Definition is_space (c : ascii) : bool :=
  let n := nat_of_ascii c in
  ((9 <=? n) && (n <=? 13) || (28 <=? n) && (n <=? 32)
   || (n =? 133) || (n =? 160))%nat.

(** [c.lower()] for a code point below 256 : A..Z and the Latin-1 capitals
    0xC0..0xDE other than the multiplication sign 0xD7 move up by 32. *)
Definition lower_char (c : ascii) : ascii :=
  let n := nat_of_ascii c in
  if ((65 <=? n) && (n <=? 90)
      || (192 <=? n) && (n <=? 222) && negb (n =? 215))%nat
  then ascii_of_nat (n + 32) else c.

(** [s.lower()] *)
Fixpoint lower (s : string) : string :=
  match s with
  | EmptyString => EmptyString
  | String c s' => String (lower_char c) (lower s')
  end.

(** [s.lstrip()] *)
Fixpoint lstrip (s : string) : string :=
  match s with
  | EmptyString => EmptyString
  | String c s' => if is_space c then lstrip s' else s
  end.

(** [s.rstrip()] *)
Fixpoint rstrip (s : string) : string :=
  match s with
  | EmptyString => EmptyString
  | String c s' =>
      match rstrip s' with
      | EmptyString => if is_space c then EmptyString else String c EmptyString
      | r => String c r
      end
  end.

(** [s.strip()] *)
Definition strip (s : string) : string := rstrip (lstrip s).

(** Truthiness of a string: [not s] holds exactly for the empty string. *)
Definition is_empty (s : string) : bool :=
  match s with EmptyString => true | _ => false end.

(** [s.split()] : split on runs of whitespace, empty tokens discarded.
    [w] is the token being read. *)
Fixpoint split_from (w s : string) : list string :=
  match s with
  | EmptyString => if is_empty w then [] else [w]
  | String c s' =>
      if is_space c
      then (if is_empty w then split_from EmptyString s'
            else w :: split_from EmptyString s')
      else split_from (w ++ String c EmptyString)%string s'
  end.

Definition split (s : string) : list string := split_from EmptyString s.

(** [s.startswith(p)] *)
Fixpoint startswith (p s : string) : bool :=
  match p, s with
  | EmptyString, _ => true
  | String _ _, EmptyString => false
  | String a p', String b s' => if ascii_dec a b then startswith p' s' else false
  end.

(** [sub in s] : substring test. *)
Fixpoint contains (sub s : string) : bool :=
  startswith sub s ||
  match s with
  | EmptyString => false
  | String _ s' => contains sub s'
  end.

End PyStr.

(** ** Python list and integer primitives *)

Module PyList.

(** Normalisation of one slice bound against a list of length [n]. *)
Definition clamp_index (n i : Z) : Z :=
  if i <? 0 then Z.max (i + n) 0 else Z.min i n.

(** [l[start:stop]] with integer bounds, negative bounds counted from the
    end; never raises. *)
Definition slice {A} (l : list A) (start stop : Z) : list A :=
  let n := Z.of_nat (length l) in
  let lo := clamp_index n start in
  let hi := clamp_index n stop in
  take (Z.to_nat (hi - lo)) (drop (Z.to_nat lo) l).

(** [enumerate(l)] *)
Definition enumerate {A} (l : list A) : list (nat * A) :=
  zip (seq 0 (length l)) l.

(** [sorted(s)] for a set of positions. *)
Definition sorted (s : gset nat) : list nat := merge_sort Nat.le (elements s).

End PyList.

(** ** Exceptions and the method monad *)

Inductive PyError := IndexError | KeyError | ZeroDivisionError.

Inductive outcome (A : Type) :=
  | Ok (a : A)
  | Raise (e : PyError).
Arguments Ok {A} a.
Arguments Raise {A} e.

(** A method of an object with state [S] : it runs on the object, returns
    a value or raises, and leaves the object in a new state. *)
Definition Py (S A : Type) : Type := S → outcome A * S.

Definition py_ret {S A} (a : A) : Py S A := λ s, (Ok a, s).

Definition py_bind {S A B} (f : A → Py S B) (m : Py S A) : Py S B :=
  λ s, match m s with
       | (Ok a, s') => f a s'
       | (Raise e, s') => (Raise e, s')
       end.

#[global] Instance Py_ret {S} : MRet (Py S) := @py_ret S.
#[global] Instance Py_bind {S} : MBind (Py S) := @py_bind S.

Definition raise {S A} (e : PyError) : Py S A := λ s, (Raise e, s).

(** Reading an attribute of [self], and assigning to [self]. *)
Definition attr {S A} (f : S → A) : Py S A := λ s, (Ok (f s), s).
Definition assign {S} (f : S → S) : Py S unit := λ s, (Ok tt, f s).

(** [for x in l: body x] *)
Fixpoint for_each {S A} (l : list A) (body : A → Py S unit) : Py S unit :=
  match l with
  | [] => mret tt
  | x :: l' => body x ;; for_each l' body
  end.

(** [[f x for x in l]] where [f] may raise. *)
Fixpoint comprehension {S A B} (f : A → Py S B) (l : list A) : Py S (list B) :=
  match l with
  | [] => mret []
  | x :: l' => y ← f x; ys ← comprehension f l'; mret (y :: ys)
  end.

(** [l[idx]] for a position [idx] : raises [IndexError] out of range. *)
Definition getitem {S A} (l : list A) (idx : nat) : Py S A :=
  match l !! idx with
  | Some x => mret x
  | None => raise IndexError
  end.

(** [a // b] : floor division, raises on a zero divisor. *)
Definition floordiv {S} (a b : Z) : Py S Z :=
  if b =? 0 then raise ZeroDivisionError else mret (a / b).

Definition result {S A} (m : Py S A) (s : S) : outcome A := fst (m s).
Definition final {S A} (m : Py S A) (s : S) : S := snd (m s).

(** ** Data models (identical in main.py and main_optimized.py) *)

Record Message := {
  id : string;
  user_id : string;
  user_name : string;
  timestamp : string;
  message : string
}.

Record SearchResponse := {
  total : Z;
  page : Z;
  limit : Z;
  total_pages : Z;
  items : list Message;
  query_time_ms : Z
}.

(** [query_lower in msg.message.lower() or query_lower in msg.user_name.lower()] *)
Definition matches (query_lower : string) (msg : Message) : bool :=
  PyStr.contains query_lower (PyStr.lower (message msg))
  || PyStr.contains query_lower (PyStr.lower (user_name msg)).

(** [not query or not query.strip()] *)
Definition blank (query : string) : bool :=
  PyStr.is_empty query || PyStr.is_empty (PyStr.strip query).

(** The pagination statements, the same in [search] (main.py, from
    "Pagination calculations" to the [return]) and in [search_fast]
    (main_optimized.py, from "Same pagination logic" to the [return]).
    [t0] is the clock reading taken on entry, [t1] the one taken after the
    slice. *)
Definition paginate {S} (filtered_messages : list Message)
    (page limit t0 t1 : Z) : Py S SearchResponse :=
  let total := Z.of_nat (length filtered_messages) in
  total_pages ← (if limit >? 0 then floordiv (total + limit - 1) limit
                 else mret 1);
  let start_idx := (page - 1) * limit in
  let end_idx := start_idx + limit in
  let page_items := PyList.slice filtered_messages start_idx end_idx in
  let query_time := t1 - t0 in
  mret {| total := total; page := page; limit := limit;
          total_pages := total_pages; items := page_items;
          query_time_ms := query_time |}.

(** ** main.py *)

Module MessageSearchEngine.

Record self := { messages : list Message; loaded : bool }.

Definition __init__ : self := {| messages := []; loaded := false |}.

(** [load_data], from the point where the upstream pages have been
    collected in [all_messages]. *)
Definition load_data (all_messages : list Message) : Py self unit :=
  assign (λ s, {| messages := all_messages; loaded := loaded s |}) ;;
  assign (λ s, {| messages := messages s; loaded := true |}).

(** The branch of [search] that computes [filtered_messages]. *)
Definition filtered_messages (query : string) : Py self (list Message) :=
  if blank query then attr messages
  else
    let query_lower := PyStr.strip (PyStr.lower query) in
    msgs ← attr messages;
    mret (List.filter (matches query_lower) msgs).

Definition search (query : string) (page limit t0 t1 : Z)
    : Py self SearchResponse :=
  filtered ← filtered_messages query;
  paginate filtered page limit t0 t1.

End MessageSearchEngine.

(** ** main_optimized.py *)

Module OptimizedMessageSearchEngine.

Record self := {
  messages : list Message;
  loaded : bool;
  message_index : gmap string (list nat);
  user_index : gmap string (list nat)
}.

Definition __init__ : self :=
  {| messages := []; loaded := false; message_index := ∅; user_index := ∅ |}.

(** [if key not in d: d[key] = []] followed by [d[key].append(idx)] *)
Definition index_append (key : string) (idx : nat)
    (d : gmap string (list nat)) : gmap string (list nat) :=
  let d := match d !! key with Some _ => d | None => <[key := []]> d end in
  match d !! key with
  | Some l => <[key := l ++ [idx]]> d
  | None => d
  end.

Definition set_message_index (f : gmap string (list nat) → gmap string (list nat))
    (s : self) : self :=
  {| messages := messages s; loaded := loaded s;
     message_index := f (message_index s); user_index := user_index s |}.

Definition set_user_index (f : gmap string (list nat) → gmap string (list nat))
    (s : self) : self :=
  {| messages := messages s; loaded := loaded s;
     message_index := message_index s; user_index := f (user_index s) |}.

Definition _build_indices : Py self unit :=
  msgs ← attr messages;
  for_each (PyList.enumerate msgs) (λ '(idx, msg),
    let words := PyStr.split (PyStr.lower (message msg)) in
    for_each words (λ word, assign (set_message_index (index_append word idx))) ;;
    let user_key := PyStr.lower (user_name msg) in
    assign (set_user_index (index_append user_key idx))).

(** [load_data], from the point where the upstream pages have been
    collected in [all_messages]. *)
Definition load_data (all_messages : list Message) : Py self unit :=
  assign (λ s, {| messages := all_messages; loaded := loaded s;
                  message_index := message_index s;
                  user_index := user_index s |}) ;;
  _build_indices ;;
  assign (λ s, {| messages := messages s; loaded := true;
                  message_index := message_index s;
                  user_index := user_index s |}).

(** [matched_indices] after the two index lookups of [search_fast]. *)
Definition exact_matches (s : self) (query_lower : string) : gset nat :=
  let matched_indices : gset nat := ∅ in
  let matched_indices :=
    match message_index s !! query_lower with
    | Some l => matched_indices ∪ list_to_set l
    | None => matched_indices
    end in
  match user_index s !! query_lower with
  | Some l => matched_indices ∪ list_to_set l
  | None => matched_indices
  end.

(** The fallback loop of [search_fast], started on [matched_indices]. *)
Definition substring_scan (msgs : list Message) (query_lower : string)
    (matched_indices : gset nat) : gset nat :=
  foldl (λ acc '(idx, msg),
           if matches query_lower msg then acc ∪ {[idx]} else acc)
        matched_indices (PyList.enumerate msgs).

(** [matched_indices] when the list comprehension of [search_fast] is
    reached. *)
Definition matched_indices (s : self) (query_lower : string) : gset nat :=
  let matched := exact_matches s query_lower in
  if decide (matched = ∅)
  then substring_scan (messages s) query_lower matched
  else matched.

(** The branch of [search_fast] that computes [filtered_messages]. *)
Definition filtered_messages (query : string) : Py self (list Message) :=
  if blank query then attr messages
  else
    let query_lower := PyStr.strip (PyStr.lower query) in
    matched ← attr (λ s, matched_indices s query_lower);
    msgs ← attr messages;
    comprehension (getitem msgs) (PyList.sorted matched).

Definition search_fast (query : string) (page limit t0 t1 : Z)
    : Py self SearchResponse :=
  filtered ← filtered_messages query;
  paginate filtered page limit t0 t1.

End OptimizedMessageSearchEngine.

(** ** The upstream API read at start-up *)

(** The JSON object of a reply; [data.get("items", [])] and
    [data.get("total", 0)] read its two keys. The raw items are taken as
    records already (the validation done by the [Message] constructor is
    not modelled). *)
Record Body := { body_items : option (list Message); body_total : option Z }.

(** What [client.get] returns : a status code and the object that
    [response.json()] yields, [None] when it raises. *)
Record Response := { status_code : Z; json : option Body }.

(** The upstream service : its reply to the [n]-th request made, for the
    given [skip] and [limit]; [None] when [client.get] raises. *)
Definition Upstream : Type := nat → Z → Z → option Response.

(** [sorted(list(users))] for a set of strings (code-point order). *)
Definition sorted_strings (users : gset string) : list string :=
  merge_sort String.le (elements users).

(** ** main.py : start-up and endpoints *)

Module MainApp.

(** The [while True] loop of [MessageSearchEngine.load_data]. [fuel] bounds
    the number of iterations, [n] counts the requests made so far. The
    statements after the [try] read the same response again. *)
Fixpoint fetch_loop (fuel : nat) (client : Upstream) (n : nat) (skip : Z)
    (all_messages : list Message) : option (list Message) :=
  match fuel with
  | O => None
  | S fuel' =>
      let limit := 100 in
      match client n skip limit with
      | None => Some all_messages
      | Some response =>
          if negb (status_code response =? 200) then Some all_messages
          else
            match json response with
            | None => Some all_messages
            | Some data =>
                let items := default [] (body_items data) in
                if bool_decide (items = []) then Some all_messages
                else
                  let all_messages := all_messages ++ items in
                  let total := default 0 (body_total data) in
                  if Z.of_nat (length all_messages) >=? total
                  then Some all_messages
                  else
                    let skip := skip + limit in
                    let items := default [] (body_items data) in
                    if bool_decide (items = []) then Some all_messages
                    else
                      let all_messages := all_messages ++ items in
                      let total := default 0 (body_total data) in
                      if Z.of_nat (length all_messages) >=? total
                      then Some all_messages
                      else
                        let skip := skip + limit in
                        fetch_loop fuel' client (S n) skip all_messages
            end
      end
  end.

(** [MessageSearchEngine.load_data] as a whole : the fetch loop, then the
    two assignments. [None] when the loop needs more than [fuel]
    iterations. *)
Definition load_data (fuel : nat) (client : Upstream)
    : option (Py MessageSearchEngine.self unit) :=
  all_messages ← fetch_loop fuel client 0 0 [];
  Some (MessageSearchEngine.load_data all_messages).

(** The global [search_engine] and [startup_event]. *)
Definition search_engine : MessageSearchEngine.self :=
  MessageSearchEngine.__init__.

Definition startup_event (fuel : nat) (client : Upstream)
    : option (Py MessageSearchEngine.self unit) :=
  load_data fuel client.

(** The body of [GET /] : the two fields that depend on the engine. *)
Record RootReply := {
  messages_loaded : Z;
  ready : bool
}.

Definition root : Py MessageSearchEngine.self RootReply :=
  msgs ← attr MessageSearchEngine.messages;
  loaded ← attr MessageSearchEngine.loaded;
  mret {| messages_loaded := Z.of_nat (length msgs); ready := loaded |}.

(** The replies of [GET /search] : 422 from the declared [Query]
    constraints, 503 while loading, or the search response. *)
Inductive SearchReply :=
  | Unprocessable
  | ServiceUnavailable
  | Found (r : SearchResponse).

(** The constraints declared on [page] ([ge=1]) and [limit] ([ge=1],
    [le=100]). *)
Definition valid_query (page limit : Z) : bool :=
  (1 <=? page) && (1 <=? limit) && (limit <=? 100).

(** The handler of [GET /search]. *)
Definition search (q : string) (page limit t0 t1 : Z)
    : Py MessageSearchEngine.self SearchReply :=
  loaded ← attr MessageSearchEngine.loaded;
  if negb loaded then mret ServiceUnavailable
  else
    result ← MessageSearchEngine.search q page limit t0 t1;
    mret (Found result).

(** [GET /search] : the defaults of the three parameters, the declared
    constraints, then the handler. *)
Definition get_search (q : option string) (page limit : option Z)
    (t0 t1 : Z) : Py MessageSearchEngine.self SearchReply :=
  let q := default EmptyString q in
  let page := default 1 page in
  let limit := default 10 limit in
  if valid_query page limit then search q page limit t0 t1
  else mret Unprocessable.

(** The body of [GET /stats]. *)
Record Stats := {
  total_messages : Z;
  unique_users : Z;
  users : list string;
  stats_loaded : bool
}.

Inductive StatsReply :=
  | Loading
  | Loaded (st : Stats).

Definition stats : Py MessageSearchEngine.self StatsReply :=
  loaded ← attr MessageSearchEngine.loaded;
  if negb loaded then mret Loading
  else
    msgs ← attr MessageSearchEngine.messages;
    let users : gset string := list_to_set (user_name <$> msgs) in
    loaded ← attr MessageSearchEngine.loaded;
    mret (Loaded {| total_messages := Z.of_nat (length msgs);
                    unique_users := Z.of_nat (size users);
                    users := sorted_strings users;
                    stats_loaded := loaded |}).

End MainApp.

(** ** main_optimized.py : start-up and endpoints *)

Module OptimizedApp.

(** The inner [while retry_count < max_retries and not success] loop of
    [OptimizedMessageSearchEngine.load_data], for one page.
    [retries_left] is [max_retries - retry_count]. It returns the items
    and the total of the successful attempt, if any, and the number of
    requests made so far. *)
Fixpoint fetch_page (retries_left : nat) (client : Upstream) (n : nat)
    (skip : Z) : option (list Message * Z) * nat :=
  match retries_left with
  | O => (None, n)
  | S retries_left' =>
      let limit := 100 in
      match client n skip limit with
      | None => fetch_page retries_left' client (S n) skip
      | Some response =>
          if (status_code response =? 403) || (status_code response =? 400)
          then fetch_page retries_left' client (S n) skip
          else if negb (status_code response =? 200) then (None, S n)
          else
            match json response with
            | None => fetch_page retries_left' client (S n) skip
            | Some data =>
                (Some (default [] (body_items data),
                       default 0 (body_total data)), S n)
            end
      end
  end.

(** The outer [while True] loop. [fuel] bounds the number of pages. *)
Fixpoint fetch_loop (fuel : nat) (client : Upstream) (n : nat) (skip : Z)
    (all_messages : list Message) : option (list Message) :=
  match fuel with
  | O => None
  | S fuel' =>
      let max_retries := 3%nat in
      let limit := 100 in
      match fetch_page max_retries client n skip with
      | (None, _) => Some all_messages
      | (Some (items, total), n') =>
          let all_messages :=
            if bool_decide (items = []) then all_messages
            else all_messages ++ items in
          if bool_decide (items = [])
             || (Z.of_nat (length all_messages) >=? total)
          then Some all_messages
          else fetch_loop fuel' client n' (skip + limit) all_messages
      end
  end.

(** [OptimizedMessageSearchEngine.load_data] as a whole. *)
Definition load_data (fuel : nat) (client : Upstream)
    : option (Py OptimizedMessageSearchEngine.self unit) :=
  all_messages ← fetch_loop fuel client 0 0 [];
  Some (OptimizedMessageSearchEngine.load_data all_messages).

(** The module state : the global [search_engine] and [request_counter]. *)
Record app := {
  search_engine : OptimizedMessageSearchEngine.self;
  request_counter : gmap string Z
}.

Definition initial : app :=
  {| search_engine := OptimizedMessageSearchEngine.__init__;
     request_counter := {[ "total" := 0; "search" := 0 ]} |}.

(** A method of the engine run on the global instance. *)
Definition on_engine {A} (m : Py OptimizedMessageSearchEngine.self A)
    : Py app A :=
  λ a, let '(o, e) := m (search_engine a) in
       (o, {| search_engine := e; request_counter := request_counter a |}).

Definition startup_event (fuel : nat) (client : Upstream)
    : option (Py app unit) :=
  on_engine <$> load_data fuel client.

(** [request_counter[key]] *)
Definition counter (key : string) : Py app Z :=
  λ a, match request_counter a !! key with
       | Some v => (Ok v, a)
       | None => (Raise KeyError, a)
       end.

(** [request_counter[key] += 1] *)
Definition increment (key : string) : Py app unit :=
  v ← counter key;
  assign (λ a, {| search_engine := search_engine a;
                  request_counter := <[key := v + 1]> (request_counter a) |}).

(** The body of [GET /] : the two fields that depend on the engine. *)
Record RootReply := {
  messages_loaded : Z;
  ready : bool
}.

Definition root : Py app RootReply :=
  msgs ← attr (λ a, OptimizedMessageSearchEngine.messages (search_engine a));
  loaded ← attr (λ a, OptimizedMessageSearchEngine.loaded (search_engine a));
  mret {| messages_loaded := Z.of_nat (length msgs); ready := loaded |}.

Inductive SearchReply :=
  | Unprocessable
  | ServiceUnavailable
  | Found (r : SearchResponse).

Definition valid_query (page limit : Z) : bool :=
  (1 <=? page) && (1 <=? limit) && (limit <=? 100).

(** The handler of [GET /search]. *)
Definition search (q : string) (page limit t0 t1 : Z) : Py app SearchReply :=
  increment "total" ;;
  increment "search" ;;
  loaded ← attr (λ a, OptimizedMessageSearchEngine.loaded (search_engine a));
  if negb loaded then mret ServiceUnavailable
  else
    result ← on_engine
                (OptimizedMessageSearchEngine.search_fast q page limit t0 t1);
    mret (Found result).

Definition get_search (q : option string) (page limit : option Z)
    (t0 t1 : Z) : Py app SearchReply :=
  let q := default EmptyString q in
  let page := default 1 page in
  let limit := default 10 limit in
  if valid_query page limit then search q page limit t0 t1
  else mret Unprocessable.

Record Stats := {
  total_messages : Z;
  unique_users : Z;
  indexed_terms : Z;
  requests_served : Z;
  search_requests : Z;
  stats_loaded : bool
}.

Inductive StatsReply :=
  | Loading
  | Loaded (st : Stats).

Definition stats : Py app StatsReply :=
  loaded ← attr (λ a, OptimizedMessageSearchEngine.loaded (search_engine a));
  if negb loaded then mret Loading
  else
    msgs ← attr (λ a, OptimizedMessageSearchEngine.messages (search_engine a));
    let users : gset string := list_to_set (user_name <$> msgs) in
    index ← attr (λ a,
               OptimizedMessageSearchEngine.message_index (search_engine a));
    served ← counter "total";
    searches ← counter "search";
    loaded ← attr (λ a, OptimizedMessageSearchEngine.loaded (search_engine a));
    mret (Loaded {| total_messages := Z.of_nat (length msgs);
                    unique_users := Z.of_nat (size users);
                    indexed_terms := Z.of_nat (size index);
                    requests_served := served;
                    search_requests := searches;
                    stats_loaded := loaded |}).

Record Metrics := {
  total_requests : Z;
  metrics_search_requests : Z;
  messages_in_memory : Z;
  metrics_indexed_terms : Z
}.

Definition metrics : Py app Metrics :=
  served ← counter "total";
  searches ← counter "search";
  msgs ← attr (λ a, OptimizedMessageSearchEngine.messages (search_engine a));
  index ← attr (λ a,
             OptimizedMessageSearchEngine.message_index (search_engine a));
  mret {| total_requests := served;
          metrics_search_requests := searches;
          messages_in_memory := Z.of_nat (length msgs);
          metrics_indexed_terms := Z.of_nat (size index) |}.



End OptimizedApp.

(** * Vocabulary of the statements *)

(** [total_pages] as the pagination statements compute it. *)
Definition page_count (total limit : Z) : Z :=
  if limit >? 0 then (total + limit - 1) / limit else 1.

(** The response assembled by the pagination statements. *)
Definition paginated (filtered : list Message) (page limit t0 t1 : Z)
    : SearchResponse :=
  let total := Z.of_nat (length filtered) in
  {| total := total; page := page; limit := limit;
     total_pages := page_count total limit;
     items := PyList.slice filtered ((page - 1) * limit)
                ((page - 1) * limit + limit);
     query_time_ms := t1 - t0 |}.

(** The query as the two engines compare it: [query.lower().strip()]. *)
Definition normalized (query : string) : string :=
  PyStr.strip (PyStr.lower query).

(** The engines as they stand once start-up has loaded [store]. *)
Definition main_started (store : list Message) : MessageSearchEngine.self :=
  final (MessageSearchEngine.load_data store) MessageSearchEngine.__init__.

Definition optimized_started (store : list Message)
    : OptimizedMessageSearchEngine.self :=
  final (OptimizedMessageSearchEngine.load_data store)
    OptimizedMessageSearchEngine.__init__.

(** The position list held for [key], empty when [key] is absent. *)
Definition postings (d : gmap string (list nat)) (key : string) : list nat :=
  default [] (d !! key).

(** Number of tokens of [words] equal to [key]. *)
Definition occurrences (key : string) (words : list string) : nat :=
  length (filter (λ w, w = key) words).

(** The tokens indexed for a record. *)
Definition tokens (msg : Message) : list string :=
  PyStr.split (PyStr.lower (message msg)).

(** What one iteration of the outer loop of [_build_indices] does. *)
Definition index_record (x : nat * Message)
    (s : OptimizedMessageSearchEngine.self)
    : OptimizedMessageSearchEngine.self :=
  OptimizedMessageSearchEngine.set_user_index
    (OptimizedMessageSearchEngine.index_append
       (PyStr.lower (user_name x.2)) x.1)
    (foldl (λ s w, OptimizedMessageSearchEngine.set_message_index
                     (OptimizedMessageSearchEngine.index_append w x.1) s)
       s (tokens x.2)).

(** The engine after the outer loop of [_build_indices]. *)
Definition built (s : OptimizedMessageSearchEngine.self)
    : OptimizedMessageSearchEngine.self :=
  foldl (λ s x, index_record x s) s
    (PyList.enumerate (OptimizedMessageSearchEngine.messages s)).

(** Positions of the records accepted by [f], in store order. *)
Definition positions_where (f : Message → bool) (msgs : list Message)
    : list nat :=
  (List.filter (λ x, f x.2) (PyList.enumerate msgs)).*1.

(** [enumerate] started at [i], as the induction needs it. *)
Definition enum_from {A} (i : nat) (l : list A) : list (nat * A) :=
  zip (seq i (length l)) l.

(** The record is an exact-term hit for [q] : [q] is one of its tokens, or
    its lower-cased user name. *)
Definition exact_hit (q : string) (m : Message) : bool :=
  bool_decide (q ∈ tokens m ∨ PyStr.lower (user_name m) = q).

(** Positions of the records that make up [filtered_messages] in [search]. *)
Definition main_match_set (s : MessageSearchEngine.self) (query : string)
    : list nat :=
  if blank query then seq 0 (length (MessageSearchEngine.messages s))
  else positions_where (matches (normalized query))
         (MessageSearchEngine.messages s).

(** Positions of the records that make up [filtered_messages] in
    [search_fast]. *)
Definition fast_match_set (s : OptimizedMessageSearchEngine.self)
    (query : string) : list nat :=
  if blank query then seq 0 (length (OptimizedMessageSearchEngine.messages s))
  else PyList.sorted
         (OptimizedMessageSearchEngine.matched_indices s (normalized query)).

(** [ms] are the records stored at [positions], in that order. *)
Definition records_at (store : list Message) (positions : list nat)
    (ms : list Message) : Prop :=
  Forall2 (λ p m, store !! p = Some m) positions ms.

(** The records selected by a started engine. *)
Definition fast_records (store : list Message) (query : string)
    : list Message :=
  if blank query then store
  else if decide (positions_where (exact_hit (normalized query)) store = [])
       then List.filter (matches (normalized query)) store
       else List.filter (exact_hit (normalized query)) store.

(** [sub] occurs in [s] as a run of consecutive characters. *)
Definition substring (sub s : string) : Prop := ∃ a b, s = a +:+ sub +:+ b.

(** The ground truth of the specification : the normalized query [q] is a
    substring of the lower-cased message or of the lower-cased user name. *)
Definition ground_truth (q : string) (r : Message) : Prop :=
  substring q (PyStr.lower (message r))
  ∨ substring q (PyStr.lower (user_name r)).

(** The records reached through the two indices : [q] is a whole token of
    the lower-cased message, or the whole lower-cased user name. *)
Definition exact_term (q : string) (r : Message) : Prop :=
  q ∈ tokens r ∨ PyStr.lower (user_name r) = q.

(** Number of records of the store reached through the two indices. *)
Definition exact_count (store : list Message) (q : string) : nat :=
  length (filter (exact_term q) store).

(** Page numbers [1 .. total_pages]. *)
Definition page_numbers (total_pages : Z) : list Z :=
  Z.of_nat <$> seq 1 (Z.to_nat total_pages).

(** Number of times [p] occurs in a position list. *)
Definition multiplicity (p : nat) (l : list nat) : nat :=
  length (filter (λ x, x = p) l).

(** The query consists of whitespace only (or is empty). *)
Fixpoint all_space (s : string) : bool :=
  match s with
  | EmptyString => true
  | String c s' => PyStr.is_space c && all_space s'
  end.

(** Two outcomes that differ at most in [query_time_ms]. *)
Definition agree_up_to_time (o1 o2 : outcome SearchResponse) : Prop :=
  match o1, o2 with
  | Ok r1, Ok r2 =>
      total r1 = total r2 ∧ page r1 = page r2 ∧ limit r1 = limit r2 ∧
      total_pages r1 = total_pages r2 ∧ items r1 = items r2
  | Raise e1, Raise e2 => e1 = e2
  | _, _ => False
  end.

(** Records used in the examples. *)
Definition record (name text : string) : Message :=
  {| id := "m"; user_id := "u"; user_name := name;
     timestamp := "2024-01-01T00:00:00"; message := text |}.

Definition sample_store : list Message :=
  [ record "Sophia" "Book a hotel in Paris";
    record "Armand" "Confirm flight to Paris";
    record "Layla" "Need dinner reservation" ].

(** Two records where the query is a whole token of one and only a part of
    a token of the other. *)
Definition overlap_store : list Message :=
  [ record "Sophia" "Weekend in Paris";
    record "Armand" "Parisian bakery tour" ].

(** [c] is the ceiling of [a / b], for a positive [b]. *)
Definition is_ceil_div (a b c : Z) : Prop := b * (c - 1) < a ≤ b * c.

(** [rs] are the responses of [call] for the pages [1 .. total_pages]. *)
Definition all_pages (call : Z → outcome SearchResponse)
    (rs : list SearchResponse) : Prop :=
  ∃ r1, call 1 = Ok r1
        ∧ Forall2 (λ p r, call p = Ok r) (page_numbers (total_pages r1)) rs.

(** The reply of a healthy upstream that holds [db] : status 200, the
    records [db[skip : skip + limit]] and the size of [db]. *)
Definition page_of (db : list Message) (skip limit : Z) : Response :=
  {| status_code := 200;
     json := Some {| body_items := Some (PyList.slice db skip (skip + limit));
                     body_total := Some (Z.of_nat (length db)) |} |}.

(** An upstream that serves [db] on every request. *)
Definition serving (db : list Message) : Upstream :=
  λ _ skip limit, Some (page_of db skip limit).

(** An upstream that serves [db] but answers 403 to the requests whose
    number is [busy]. *)
Definition rate_limited (busy : nat → bool) (db : list Message) : Upstream :=
  λ n skip limit,
    if busy n then Some {| status_code := 403; json := None |}
    else Some (page_of db skip limit).


(** The two counters of the optimized service hold [t] and [s]. *)
Definition counters (a : OptimizedApp.app) (t s : Z) : Prop :=
  OptimizedApp.request_counter a !! "total" = Some t
  ∧ OptimizedApp.request_counter a !! "search" = Some s.

(** The user names of the store, as a set. *)
Definition user_names (store : list Message) : gset string :=
  list_to_set (user_name <$> store).


(** No character of the string is whitespace. *)
Fixpoint no_space (s : string) : bool :=
  match s with
  | EmptyString => true
  | String c s' => negb (PyStr.is_space c) && no_space s'
  end.

(** All tokens of the store. *)
Definition all_tokens (store : list Message) : gset string :=
  list_to_set (store ≫= tokens).

(** The engine after a second [load_data] of the same store. *)
Definition reloaded (store : list Message)
    : OptimizedMessageSearchEngine.self :=
  final (OptimizedMessageSearchEngine.load_data store)
    (optimized_started store).

(** * Facts about the Python primitives *)

Module PyStrFacts.
Import PyStr.

Lemma str_app_cons (c : ascii) (s t : string) :
  String c s +:+ t = String c (s +:+ t).
Proof. reflexivity. Qed.

Lemma str_app_nil_l (s : string) : "" +:+ s = s.
Proof. reflexivity. Qed.

Ltac str_norm := rewrite ?str_app_cons, ?str_app_nil_l in *.

Lemma str_app_nil_r (s : string) : s +:+ "" = s.
Proof. induction s as [|c s IH]; [done | str_norm; by rewrite IH]. Qed.

Lemma str_app_assoc (a b c : string) : (a +:+ b) +:+ c = a +:+ b +:+ c.
Proof. induction a as [|x a IH]; [done | str_norm; by rewrite IH]. Qed.

Lemma is_space_lower_char (c : ascii) : is_space (lower_char c) = is_space c.
Proof. by destruct c as [[] [] [] [] [] [] [] []]. Qed.

Lemma lower_char_idemp (c : ascii) : lower_char (lower_char c) = lower_char c.
Proof. by destruct c as [[] [] [] [] [] [] [] []]. Qed.

Lemma lower_idemp (s : string) : lower (lower s) = lower s.
Proof.
  induction s as [|c s IH]; simpl; [done|].
  by rewrite lower_char_idemp, IH.
Qed.

Lemma lstrip_lower (s : string) : lstrip (lower s) = lower (lstrip s).
Proof.
  induction s as [|c s IH]; simpl; [done|].
  rewrite is_space_lower_char. by destruct (is_space c).
Qed.

Lemma rstrip_lower (s : string) : rstrip (lower s) = lower (rstrip s).
Proof.
  induction s as [|c s IH]; simpl; [done|].
  rewrite IH, is_space_lower_char.
  destruct (rstrip s); simpl; [by destruct (is_space c) | done].
Qed.

Lemma strip_lower (s : string) : strip (lower s) = lower (strip s).
Proof. unfold strip. by rewrite lstrip_lower, rstrip_lower. Qed.

Lemma is_empty_lower (s : string) : is_empty (lower s) = is_empty s.
Proof. by destruct s. Qed.

Lemma is_empty_true (s : string) : is_empty s = true ↔ s = "".
Proof. by destruct s. Qed.

Lemma startswith_spec (p s : string) :
  startswith p s = true ↔ ∃ b, s = p +:+ b.
Proof.
  revert s. induction p as [|a p IH]; intros s; simpl.
  - split; [by exists s | done].
  - destruct s as [|b s]; [split; [done | by intros [? ?]]|].
    destruct (ascii_dec a b) as [->|Hne].
    + rewrite IH. split; intros [t Ht]; exists t; str_norm; congruence.
    + split; [done | intros [t Ht]; str_norm; congruence].
Qed.

(** [contains] decides the substring relation. *)
Lemma contains_spec (sub s : string) :
  contains sub s = true ↔ ∃ a b, s = a +:+ sub +:+ b.
Proof.
  induction s as [|c s IH]; simpl.
  - rewrite orb_false_r, startswith_spec. split.
    + intros [b Hb]. by exists "", b.
    + intros (a & b & Hab). destruct a; [by exists b | done].
  - rewrite orb_true_iff, startswith_spec, IH. split.
    + intros [[b Hb] | (a & b & Hab)].
      * by exists "", b.
      * exists (String c a), b. str_norm. by rewrite Hab.
    + intros (a & b & Hab). destruct a as [|x a]; str_norm.
      * left. by exists b.
      * right. exists a, b. congruence.
Qed.

(** Every token produced by [split] is a substring of the text. *)
Lemma split_from_substring (s w x : string) :
  x ∈ split_from w s → ∃ a b, w +:+ s = a +:+ x +:+ b.
Proof.
  revert w. induction s as [|c s IH]; intros w; simpl.
  - destruct w as [|c' w]; simpl; [by intros ?%elem_of_nil|].
    intros ->%list_elem_of_singleton. exists "", "".
    by rewrite str_app_nil_l.
  - destruct (is_space c).
    + destruct w as [|c' w]; simpl.
      * intros (a & b & Hab)%IH. str_norm.
        exists (String c a), b. str_norm. by rewrite Hab.
      * intros [->|(a & b & Hab)%IH]%elem_of_cons.
        -- by exists "", (String c s).
        -- str_norm. exists (String c' w +:+ String c a), b.
           rewrite str_app_assoc. str_norm. by rewrite Hab.
    + intros (a & b & Hab)%IH. exists a, b.
      rewrite <- Hab, str_app_assoc. by str_norm.
Qed.

Lemma split_contains (s x : string) : x ∈ split s → contains x s = true.
Proof. intros H%split_from_substring. by apply contains_spec. Qed.

End PyStrFacts.

(** The substring relation is decided by [in]. *)
#[global] Instance substring_dec (sub s : string) : Decision (substring sub s).
Proof.
  refine (cast_if (decide (PyStr.contains sub s = true)));
    unfold substring; by rewrite <- PyStrFacts.contains_spec.
Defined.

(** Number of records of the store that satisfy the ground truth. *)
Definition ground_truth_count (store : list Message) (q : string) : nat :=
  length (filter (ground_truth q) store).

(** * Running the methods *)

Ltac py_unfold :=
  unfold mbind, mret, Py_bind, Py_ret, py_bind, py_ret, attr, assign, raise.

Section MonadFacts.
Context {S : Type}.

Lemma bind_run {A B} (m : Py S A) (f : A → Py S B) (s : S) :
  (m ≫= f) s = match m s with
               | (Ok a, s') => f a s'
               | (Raise e, s') => (Raise e, s')
               end.
Proof. reflexivity. Qed.

Lemma ret_run {A} (a : A) (s : S) : (mret a : Py S A) s = (Ok a, s).
Proof. reflexivity. Qed.

Lemma for_each_steps {A} (step : A → S → S) (body : A → Py S unit)
    (l : list A) (s : S) :
  (∀ x s, body x s = (Ok tt, step x s)) →
  for_each l body s = (Ok tt, foldl (λ s x, step x s) s l).
Proof.
  intros Hbody. revert s. induction l as [|x l IH]; intros s; [done|].
  simpl. py_unfold. by rewrite Hbody, IH.
Qed.

Lemma comprehension_getitem {A} (l : list A) (idxs : list nat) (s : S) :
  comprehension (getitem l) idxs s =
    (match mapM (l !!.) idxs with
     | Some xs => Ok xs
     | None => Raise IndexError
     end, s).
Proof.
  induction idxs as [|i idxs IH]; [done|].
  cbn [comprehension mapM]. rewrite bind_run. unfold getitem at 1.
  destruct (l !! i) as [x|]; cbn; [|done].
  rewrite bind_run, IH. by destruct (mapM _ idxs).
Qed.

Lemma paginate_run (filtered : list Message) (page limit t0 t1 : Z) (s : S) :
  paginate filtered page limit t0 t1 s
  = (Ok (paginated filtered page limit t0 t1), s).
Proof.
  unfold paginate, paginated, page_count, floordiv. py_unfold.
  destruct (limit >? 0) eqn:Hpos; [|done].
  destruct (limit =? 0) eqn:Hz; [lia | done].
Qed.
End MonadFacts.

Module SliceFacts.
Import PyList.

Lemma slice_nonneg {A} (l : list A) (a b : Z) :
  0 ≤ a ≤ b → slice l a b = take (Z.to_nat (b - a)) (drop (Z.to_nat a) l).
Proof.
  intros Hab. unfold slice, clamp_index.
  destruct (Z.ltb_spec a 0); [lia|]. destruct (Z.ltb_spec b 0); [lia|].
  destruct (decide (a ≤ Z.of_nat (length l))) as [Ha|Ha].
  - rewrite (Z.min_l a) by done.
    destruct (decide (b ≤ Z.of_nat (length l))) as [Hb|Hb].
    + by rewrite (Z.min_l b).
    + rewrite (Z.min_r b) by lia.
      rewrite !take_ge; [done|rewrite length_drop; lia..].
  - rewrite !Z.min_r by lia.
    rewrite (drop_ge l (Z.to_nat a)) by lia.
    replace (Z.to_nat (Z.of_nat (length l) - Z.of_nat (length l))) with 0%nat by lia.
    by rewrite take_0, take_nil.
Qed.

(** The page with number [p] (from 1) is the chunk with number [p - 1]. *)
Lemma slice_page {A} (l : list A) (limit : Z) (k : nat) :
  1 ≤ limit →
  slice l ((Z.of_nat (S k) - 1) * limit) ((Z.of_nat (S k) - 1) * limit + limit)
  = take (Z.to_nat limit) (drop (k * Z.to_nat limit) l).
Proof.
  intros Hl. rewrite slice_nonneg by lia. f_equal; [f_equal; lia|].
  f_equal. lia.
Qed.

Lemma slice_beyond {A} (l : list A) (a b : Z) :
  Z.of_nat (length l) ≤ a → a ≤ b → slice l a b = [].
Proof.
  intros Ha Hb. rewrite slice_nonneg by lia.
  rewrite drop_ge by lia. apply take_nil.
Qed.

End SliceFacts.

(** * Index construction *)

Module IndexFacts.
Import OptimizedMessageSearchEngine.

Lemma build_indices_run (s : self) : _build_indices s = (Ok tt, built s).
Proof.
  unfold _build_indices. rewrite bind_run. unfold attr at 1.
  apply for_each_steps. intros [idx msg] s'.
  rewrite bind_run.
  rewrite (for_each_steps (λ w, set_message_index (index_append w idx)))
    by done.
  done.
Qed.

Lemma postings_index_append (key k : string) (idx : nat)
    (d : gmap string (list nat)) :
  postings (index_append key idx d) k
  = postings d k ++ (if decide (key = k) then [idx] else []).
Proof.
  unfold postings, index_append.
  destruct (d !! key) as [l|] eqn:Hkey.
  - rewrite Hkey. destruct (decide (key = k)) as [<-|Hne].
    + by rewrite lookup_insert_eq, Hkey.
    + by rewrite lookup_insert_ne, app_nil_r.
  - rewrite lookup_insert_eq. destruct (decide (key = k)) as [<-|Hne].
    + by rewrite lookup_insert_eq, Hkey.
    + by rewrite !lookup_insert_ne, app_nil_r.
Qed.

Lemma postings_words (k : string) (idx : nat) (ws : list string)
    (d : gmap string (list nat)) :
  postings (foldl (λ d w, index_append w idx d) d ws) k
  = postings d k ++ replicate (occurrences k ws) idx.
Proof.
  revert d. induction ws as [|w ws IH]; intros d; simpl.
  - by rewrite app_nil_r.
  - rewrite IH, postings_index_append, <- app_assoc. f_equal.
    unfold occurrences. rewrite filter_cons.
    by destruct (decide (w = k)).
Qed.

(** The two indices after the records of [l] have been processed. *)
Lemma index_record_fields (l : list (nat * Message)) (s : self) :
  let s' := foldl (λ s x, index_record x s) s l in
  messages s' = messages s ∧ loaded s' = loaded s ∧
  message_index s'
  = foldl (λ d x, foldl (λ d w, index_append w x.1 d) d (tokens x.2))
      (message_index s) l ∧
  user_index s'
  = foldl (λ d x, index_append (PyStr.lower (user_name x.2)) x.1 d)
      (user_index s) l.
Proof.
  revert s. induction l as [|x l IH]; intros s; [done|].
  cbn [foldl]. destruct (IH (index_record x s)) as (Hm & Hl & Hmi & Hui).
  cbn zeta. rewrite Hm, Hl, Hmi, Hui. clear.
  unfold index_record. set (ws := tokens x.2).
  assert (∀ s0,
    let s1 := foldl (λ s w, set_message_index (index_append w x.1) s) s0 ws in
    messages s1 = messages s0 ∧ loaded s1 = loaded s0 ∧
    user_index s1 = user_index s0 ∧
    message_index s1
    = foldl (λ d w, index_append w x.1 d) (message_index s0) ws) as Hin.
  { induction ws as [|w ws IHw]; intros s0; [done|].
    cbn [foldl]. destruct (IHw (set_message_index (index_append w x.1) s0))
      as (? & ? & ? & ?). by repeat split. }
  destruct (Hin s) as (H1 & H2 & H3 & H4). cbn zeta in *.
  unfold set_user_index; cbn. by rewrite H1, H2, H3, H4.
Qed.

Lemma postings_message_index (k : string) (l : list (nat * Message))
    (d : gmap string (list nat)) :
  postings
    (foldl (λ d x, foldl (λ d w, index_append w x.1 d) d (tokens x.2)) d l) k
  = postings d k
    ++ concat (map (λ x, replicate (occurrences k (tokens x.2)) x.1) l).
Proof.
  revert d. induction l as [|x l IH]; intros d; simpl.
  - by rewrite app_nil_r.
  - by rewrite IH, postings_words, <- app_assoc.
Qed.

Lemma postings_user_index (k : string) (l : list (nat * Message))
    (d : gmap string (list nat)) :
  postings
    (foldl (λ d x, index_append (PyStr.lower (user_name x.2)) x.1 d) d l) k
  = postings d k
    ++ concat (map (λ x, if decide (PyStr.lower (user_name x.2) = k)
                         then [x.1] else []) l).
Proof.
  revert d. induction l as [|x l IH]; intros d; simpl.
  - by rewrite app_nil_r.
  - by rewrite IH, postings_index_append, <- app_assoc.
Qed.

End IndexFacts.

(** * Positions *)

Module EnumFacts.

Lemma enum_from_cons {A} (i : nat) (x : A) (l : list A) :
  enum_from i (x :: l) = (i, x) :: enum_from (S i) l.
Proof. reflexivity. Qed.

Lemma elem_of_enum_from {A} (i p : nat) (m : A) (l : list A) :
  (p, m) ∈ enum_from i l ↔ (i ≤ p)%nat ∧ l !! (p - i)%nat = Some m.
Proof.
  revert i. induction l as [|x l IH]; intros i.
  - unfold enum_from; simpl. split; [by intros ?%elem_of_nil | by intros [_ ?]].
  - rewrite enum_from_cons, elem_of_cons, IH. split.
    + intros [[= -> ->] | [Hle Hl]].
      * split; [lia|]. by replace (i - i)%nat with 0%nat by lia.
      * split; [lia|]. by replace (p - i)%nat with (S (p - S i)) by lia.
    + intros [Hle Hl]. destruct (decide (p = i)) as [->|Hne].
      * left. replace (i - i)%nat with 0%nat in Hl by lia. simpl in Hl.
        congruence.
      * right. split; [lia|].
        by replace (p - i)%nat with (S (p - S i)) in Hl by lia.
Qed.

Lemma elem_of_enumerate {A} (p : nat) (m : A) (l : list A) :
  (p, m) ∈ PyList.enumerate l ↔ l !! p = Some m.
Proof.
  change (PyList.enumerate l) with (enum_from 0 l).
  rewrite elem_of_enum_from. replace (p - 0)%nat with p by lia.
  split; [by intros [_ ?] | split; [lia | done]].
Qed.

Lemma filter_enum_from_snd {A} (f : A → bool) (i : nat) (l : list A) :
  (List.filter (λ x, f x.2) (enum_from i l)).*2 = List.filter f l.
Proof.
  revert i. induction l as [|x l IH]; intros i; [done|].
  rewrite enum_from_cons. simpl. destruct (f x); simpl; by rewrite IH.
Qed.

Lemma elem_of_filter_enum_from {A} (f : A → bool) (i p : nat) (l : list A) :
  p ∈ (List.filter (λ x, f x.2) (enum_from i l)).*1
  ↔ ∃ m, (p, m) ∈ enum_from i l ∧ f m = true.
Proof.
  rewrite list_elem_of_fmap. split.
  - intros ([p' m] & -> & Hin). apply list_elem_of_In, filter_In in Hin.
    destruct Hin as [Hin Hf]. exists m. by rewrite list_elem_of_In.
  - intros (m & Hin & Hf). exists (p, m). split; [done|].
    apply list_elem_of_In, filter_In. by rewrite <- list_elem_of_In.
Qed.

Lemma filter_enum_from_sorted {A} (f : A → bool) (i : nat) (l : list A) :
  StronglySorted lt (List.filter (λ x, f x.2) (enum_from i l)).*1.
Proof.
  revert i. induction l as [|x l IH]; intros i; [constructor|].
  rewrite enum_from_cons. simpl. destruct (f x); simpl; [|apply IH].
  constructor; [apply IH|]. apply Forall_forall. intros p Hp.
  apply elem_of_filter_enum_from in Hp as (m & Hin & _).
  apply elem_of_enum_from in Hin. lia.
Qed.

End EnumFacts.

Section PositionsWhere.
Variable f : Message → bool.
Variable msgs : list Message.

Lemma elem_of_positions_where (p : nat) :
  p ∈ positions_where f msgs ↔ ∃ m, msgs !! p = Some m ∧ f m = true.
Proof.
  unfold positions_where.
  change (PyList.enumerate msgs) with (enum_from 0 msgs).
  rewrite EnumFacts.elem_of_filter_enum_from.
  by setoid_rewrite EnumFacts.elem_of_enumerate.
Qed.

Lemma positions_where_sorted : StronglySorted lt (positions_where f msgs).
Proof. apply (EnumFacts.filter_enum_from_sorted f 0). Qed.

Lemma positions_where_length :
  length (positions_where f msgs) = length (List.filter f msgs).
Proof.
  unfold positions_where.
  rewrite <- (EnumFacts.filter_enum_from_snd f 0 msgs).
  by rewrite !length_fmap.
Qed.

(** Dereferencing the accepted positions gives the accepted records. *)
Lemma positions_where_deref :
  mapM (msgs !!.) (positions_where f msgs) = Some (List.filter f msgs).
Proof.
  apply mapM_Some. unfold positions_where.
  rewrite <- (EnumFacts.filter_enum_from_snd f 0 msgs).
  change (PyList.enumerate msgs) with (enum_from 0 msgs).
  apply Forall2_fmap, Forall_Forall2_diag, Forall_forall.
  intros [p m] Hin. apply list_elem_of_In, filter_In in Hin as [Hin _].
  by apply EnumFacts.elem_of_enumerate, list_elem_of_In.
Qed.
End PositionsWhere.

(** * [sorted] on a set of positions *)

Module SortedFacts.
Import PyList.

Lemma sorted_perm (X : gset nat) : sorted X ≡ₚ elements X.
Proof. apply merge_sort_Permutation. Qed.

Lemma elem_of_sorted (X : gset nat) (p : nat) : p ∈ sorted X ↔ p ∈ X.
Proof. by rewrite sorted_perm, elem_of_elements. Qed.

Lemma sorted_NoDup (X : gset nat) : NoDup (sorted X).
Proof. rewrite sorted_perm. apply NoDup_elements. Qed.

Lemma sorted_length (X : gset nat) : length (sorted X) = size X.
Proof. by rewrite sorted_perm. Qed.

Lemma sorted_le (X : gset nat) : StronglySorted Nat.le (sorted X).
Proof. apply StronglySorted_merge_sort; apply _. Qed.

Lemma le_NoDup_lt (l : list nat) :
  StronglySorted Nat.le l → NoDup l → StronglySorted lt l.
Proof.
  induction 1 as [|x l Hl IH Hx]; intros Hnd; [constructor|].
  apply NoDup_cons in Hnd as [Hnotin Hnd].
  constructor; [by apply IH|].
  apply Forall_forall. intros y Hy.
  rewrite Forall_forall in Hx. specialize (Hx y Hy).
  assert (x ≠ y) by (intros ->; done). unfold Nat.le in Hx. lia.
Qed.

(** [sorted] lists the set in strictly ascending order. *)
Lemma sorted_lt (X : gset nat) : StronglySorted lt (sorted X).
Proof. apply le_NoDup_lt; [apply sorted_le | apply sorted_NoDup]. Qed.

Lemma lt_sorted_NoDup (l : list nat) : StronglySorted lt l → NoDup l.
Proof.
  induction 1 as [|x l Hl IH Hx]; [constructor|].
  apply NoDup_cons. split; [|done].
  intros Hin. rewrite Forall_forall in Hx. specialize (Hx x Hin). lia.
Qed.

Lemma lt_sorted_le (l : list nat) :
  StronglySorted lt l → StronglySorted Nat.le l.
Proof.
  induction 1 as [|x l Hl IH Hx]; constructor; [done|].
  eapply Forall_impl; [exact Hx|]. intros y Hy. unfold Nat.le. lia.
Qed.

(** A strictly ascending list with the elements of [X] is [sorted X]. *)
Lemma sorted_unique (X : gset nat) (l : list nat) :
  StronglySorted lt l → (∀ p, p ∈ l ↔ p ∈ X) → sorted X = l.
Proof.
  intros Hl Hel. apply (StronglySorted_unique Nat.le).
  - apply sorted_le.
  - by apply lt_sorted_le.
  - apply NoDup_Permutation; [apply sorted_NoDup | by apply lt_sorted_NoDup |].
    intros p. by rewrite elem_of_sorted, Hel.
Qed.

End SortedFacts.

(** * Query resolution in [search_fast] *)

Module ResolveFacts.
Import OptimizedMessageSearchEngine.

Lemma exact_matches_postings (s : self) (k : string) :
  exact_matches s k
  = list_to_set (postings (message_index s) k)
    ∪ list_to_set (postings (user_index s) k).
Proof.
  unfold exact_matches, postings.
  destruct (message_index s !! k), (user_index s !! k); simpl;
    by rewrite ?(left_id_L ∅ (∪)), ?(right_id_L ∅ (∪)), ?list_to_set_nil.
Qed.

Lemma scan_pairs (q : string) (l : list (nat * Message)) (acc : gset nat)
    (p : nat) :
  p ∈ foldl (λ acc '(idx, msg),
               if matches q msg then acc ∪ {[idx]} else acc) acc l
  ↔ p ∈ acc ∨ ∃ m, (p, m) ∈ l ∧ matches q m = true.
Proof.
  revert acc. induction l as [|[i m] l IH]; intros acc; simpl.
  - split; [by left | intros [?|(? & ?%elem_of_nil & _)]; done].
  - rewrite IH. destruct (matches q m) eqn:Hm.
    + rewrite elem_of_union, elem_of_singleton. split.
      * intros [[?| ->]|(m' & Hin & Hq)]; [by left| |].
        -- right. exists m. split; [left | done].
        -- right. exists m'. split; [by right | done].
      * intros [?|(m' & Hin & Hq)]; [by left; left|].
        apply elem_of_cons in Hin as [[= -> ->]|Hin]; [by left; right|].
        right. by exists m'.
    + split.
      * intros [?|(m' & Hin & Hq)]; [by left|].
        right. exists m'. split; [by right | done].
      * intros [?|(m' & Hin & Hq)]; [by left|].
        apply elem_of_cons in Hin as [[= -> ->]|Hin]; [congruence|].
        right. by exists m'.
Qed.

Lemma elem_of_substring_scan (msgs : list Message) (q : string)
    (acc : gset nat) (p : nat) :
  p ∈ substring_scan msgs q acc
  ↔ p ∈ acc ∨ ∃ m, msgs !! p = Some m ∧ matches q m = true.
Proof.
  unfold substring_scan. rewrite scan_pairs.
  by setoid_rewrite EnumFacts.elem_of_enumerate.
Qed.

(** The fallback finds the positions of the plain substring scan. *)
Lemma sorted_substring_scan (msgs : list Message) (q : string) :
  PyList.sorted (substring_scan msgs q ∅) = positions_where (matches q) msgs.
Proof.
  apply SortedFacts.sorted_unique; [apply positions_where_sorted|].
  intros p. rewrite elem_of_positions_where, elem_of_substring_scan.
  split; [by right | intros [?%not_elem_of_empty|?]; done].
Qed.

Lemma occurrences_pos (k : string) (ws : list string) :
  occurrences k ws ≠ 0%nat ↔ k ∈ ws.
Proof.
  unfold occurrences. induction ws as [|w ws IH].
  - split; [done | by intros ?%elem_of_nil].
  - rewrite filter_cons, elem_of_cons.
    destruct (decide (w = k)) as [->|Hne]; simpl.
    + split; [by left | done].
    + rewrite IH. split; [by right | intros [?|?]; [congruence | done]].
Qed.

Lemma elem_of_concat_map {A B} (f : A → list B) (l : list A) (y : B) :
  y ∈ concat (map f l) ↔ ∃ x, x ∈ l ∧ y ∈ f x.
Proof.
  induction l as [|a l IH]; simpl.
  - split; [by intros ?%elem_of_nil | by intros (? & ?%elem_of_nil & _)].
  - rewrite elem_of_app, IH. split.
    + intros [?|(x & ? & ?)]; [exists a | exists x]; split; try done;
        [left | by right].
    + intros (x & [->|?]%elem_of_cons & ?); [by left | right; by exists x].
Qed.

Lemma load_data_run (store : list Message) (s : self) :
  load_data store s
  = (Ok tt,
     let s1 := built
                 {| messages := store; loaded := loaded s;
                    message_index := message_index s;
                    user_index := user_index s |} in
     {| messages := messages s1; loaded := true;
        message_index := message_index s1; user_index := user_index s1 |}).
Proof.
  unfold load_data. rewrite bind_run. unfold assign at 1.
  rewrite bind_run, IndexFacts.build_indices_run. reflexivity.
Qed.

Lemma started_fields (store : list Message) :
  let s := optimized_started store in
  messages s = store ∧ loaded s = true ∧
  (∀ k, postings (message_index s) k
        = concat (map (λ x, replicate (occurrences k (tokens x.2)) x.1)
                    (PyList.enumerate store))) ∧
  (∀ k, postings (user_index s) k
        = concat (map (λ x, if decide (PyStr.lower (user_name x.2) = k)
                            then [x.1] else [])
                    (PyList.enumerate store))).
Proof.
  unfold optimized_started, final. rewrite load_data_run.
  cbn [snd]. unfold built.
  set (s0 := {| messages := store; loaded := _ |}).
  change (messages s0) with store.
  destruct (IndexFacts.index_record_fields (PyList.enumerate store) s0)
    as (Hm & Hl & Hmi & Hui). cbn zeta in *.
  cbn [messages loaded message_index user_index].
  rewrite Hm. repeat split.
  - intros k. by rewrite Hmi, IndexFacts.postings_message_index.
  - intros k. by rewrite Hui, IndexFacts.postings_user_index.
Qed.

Lemma elem_of_started_message_index (store : list Message) (k : string)
    (p : nat) :
  p ∈ postings (message_index (optimized_started store)) k
  ↔ ∃ m, store !! p = Some m ∧ k ∈ tokens m.
Proof.
  destruct (started_fields store) as (_ & _ & Hmi & _). rewrite Hmi.
  rewrite elem_of_concat_map. split.
  - intros ([i m] & Hin & Hp). simpl in Hp.
    apply elem_of_replicate in Hp as [-> Hocc].
    exists m. split; [by apply EnumFacts.elem_of_enumerate|].
    by apply occurrences_pos.
  - intros (m & Hm & Hk). exists (p, m). split.
    + by apply EnumFacts.elem_of_enumerate.
    + simpl. apply elem_of_replicate. split; [done | by apply occurrences_pos].
Qed.

Lemma elem_of_started_user_index (store : list Message) (k : string)
    (p : nat) :
  p ∈ postings (user_index (optimized_started store)) k
  ↔ ∃ m, store !! p = Some m ∧ PyStr.lower (user_name m) = k.
Proof.
  destruct (started_fields store) as (_ & _ & _ & Hui). rewrite Hui.
  rewrite elem_of_concat_map. split.
  - intros ([i m] & Hin & Hp). simpl in Hp.
    destruct (decide (PyStr.lower (user_name m) = k)) as [Hk|Hk];
      [|by apply elem_of_nil in Hp].
    apply list_elem_of_singleton in Hp as ->.
    exists m. split; [by apply EnumFacts.elem_of_enumerate | done].
  - intros (m & Hm & Hk). exists (p, m). split.
    + by apply EnumFacts.elem_of_enumerate.
    + simpl. rewrite decide_True by done. by apply list_elem_of_singleton.
Qed.

(** The exact-term candidates of a started engine. *)
Lemma elem_of_started_exact (store : list Message) (k : string) (p : nat) :
  p ∈ exact_matches (optimized_started store) k
  ↔ ∃ m, store !! p = Some m
         ∧ (k ∈ tokens m ∨ PyStr.lower (user_name m) = k).
Proof.
  rewrite exact_matches_postings, elem_of_union, !elem_of_list_to_set.
  rewrite elem_of_started_message_index, elem_of_started_user_index. split.
  - intros [(m & ? & ?)|(m & ? & ?)]; exists m; auto.
  - intros (m & ? & [?|?]); [left | right]; exists m; auto.
Qed.

End ResolveFacts.

(** * The two search methods, run *)

Module RunFacts.

Lemma blank_normalized (query : string) :
  blank query = PyStr.is_empty (normalized query).
Proof.
  unfold blank, normalized.
  rewrite PyStrFacts.strip_lower, PyStrFacts.is_empty_lower.
  by destruct query.
Qed.

Lemma blank_false (query : string) :
  normalized query ≠ "" → blank query = false.
Proof.
  rewrite blank_normalized. by destruct (normalized query).
Qed.

Lemma deref_all {A} (l : list A) : mapM (l !!.) (seq 0 (length l)) = Some l.
Proof.
  apply mapM_Some, Forall2_same_length_lookup_2.
  - by rewrite length_seq.
  - intros i p x Hp Hx. apply lookup_seq in Hp as [-> _]. done.
Qed.

Lemma main_match_set_deref (s : MessageSearchEngine.self) (query : string) :
  mapM (MessageSearchEngine.messages s !!.) (main_match_set s query)
  = Some (if blank query then MessageSearchEngine.messages s
          else List.filter (matches (normalized query))
                 (MessageSearchEngine.messages s)).
Proof.
  unfold main_match_set. destruct (blank query).
  - apply deref_all.
  - apply positions_where_deref.
Qed.

Lemma search_run (query : string) (page limit t0 t1 : Z)
    (s : MessageSearchEngine.self) :
  MessageSearchEngine.search query page limit t0 t1 s
  = (Ok (paginated
           (if blank query then MessageSearchEngine.messages s
            else List.filter (matches (normalized query))
                   (MessageSearchEngine.messages s))
           page limit t0 t1), s).
Proof.
  unfold MessageSearchEngine.search, MessageSearchEngine.filtered_messages.
  rewrite bind_run. destruct (blank query).
  - unfold attr. apply paginate_run.
  - rewrite bind_run. unfold attr at 1. rewrite ret_run. apply paginate_run.
Qed.

Lemma search_fast_run (query : string) (page limit t0 t1 : Z)
    (s : OptimizedMessageSearchEngine.self) :
  OptimizedMessageSearchEngine.search_fast query page limit t0 t1 s
  = (match mapM (OptimizedMessageSearchEngine.messages s !!.)
             (fast_match_set s query) with
     | Some filtered => Ok (paginated filtered page limit t0 t1)
     | None => Raise IndexError
     end, s).
Proof.
  unfold OptimizedMessageSearchEngine.search_fast,
    OptimizedMessageSearchEngine.filtered_messages, fast_match_set.
  rewrite bind_run. destruct (blank query).
  - unfold attr. rewrite deref_all. apply paginate_run.
  - rewrite bind_run. unfold attr at 1. rewrite bind_run. unfold attr at 1.
    rewrite comprehension_getitem. fold (normalized query).
    destruct (mapM _ _); [apply paginate_run | done].
Qed.

Import OptimizedMessageSearchEngine.

Lemma sorted_started_exact (store : list Message) (q : string) :
  PyList.sorted (exact_matches (optimized_started store) q)
  = positions_where (exact_hit q) store.
Proof.
  apply SortedFacts.sorted_unique; [apply positions_where_sorted|].
  intros p. rewrite elem_of_positions_where, ResolveFacts.elem_of_started_exact.
  unfold exact_hit. by setoid_rewrite bool_decide_eq_true.
Qed.

Lemma started_exact_empty (store : list Message) (q : string) :
  exact_matches (optimized_started store) q = ∅
  ↔ positions_where (exact_hit q) store = [].
Proof.
  rewrite <- sorted_started_exact. split.
  - intros ->. unfold PyList.sorted. by rewrite elements_empty.
  - intros Hnil. apply set_eq. intros p.
    rewrite <- SortedFacts.elem_of_sorted, Hnil.
    split; [by intros ?%elem_of_nil | by intros ?%not_elem_of_empty].
Qed.

(** The Match Set of a started engine, in terms of the store alone. *)
Lemma started_match_set (store : list Message) (query : string) :
  fast_match_set (optimized_started store) query
  = if blank query then seq 0 (length store)
    else if decide (positions_where (exact_hit (normalized query)) store = [])
         then positions_where (matches (normalized query)) store
         else positions_where (exact_hit (normalized query)) store.
Proof.
  unfold fast_match_set.
  destruct (ResolveFacts.started_fields store) as (Hm & _). cbn zeta in Hm.
  rewrite Hm. destruct (blank query); [done|].
  unfold matched_indices. rewrite Hm.
  destruct (decide (exact_matches _ _ = ∅)) as [He|He].
  - rewrite He, ResolveFacts.sorted_substring_scan.
    apply started_exact_empty in He. by rewrite decide_True.
  - rewrite sorted_started_exact, decide_False; [done|].
    by rewrite <- started_exact_empty.
Qed.

Lemma started_deref (store : list Message) (query : string) :
  mapM (store !!.) (fast_match_set (optimized_started store) query)
  = Some (fast_records store query).
Proof.
  rewrite started_match_set. unfold fast_records. destruct (blank query).
  - apply deref_all.
  - destruct (decide _); apply positions_where_deref.
Qed.

Lemma started_search_fast_run (store : list Message) (query : string)
    (page limit t0 t1 : Z) :
  search_fast query page limit t0 t1 (optimized_started store)
  = (Ok (paginated (fast_records store query) page limit t0 t1),
     optimized_started store).
Proof.
  rewrite search_fast_run.
  destruct (ResolveFacts.started_fields store) as (Hm & _). cbn zeta in Hm.
  by rewrite Hm, started_deref.
Qed.

End RunFacts.

(** * Counting records *)

Module CountFacts.

Lemma filter_bool {A} (f : A → bool) (P : A → Prop) `{∀ x, Decision (P x)}
    (l : list A) :
  (∀ x, f x = true ↔ P x) → List.filter f l = filter P l.
Proof.
  intros Hf. induction l as [|x l IH]; [done|].
  simpl. rewrite filter_cons, IH.
  destruct (decide (P x)) as [HP|HP].
  - apply Hf in HP. by rewrite HP.
  - destruct (f x) eqn:Hfx; [|done]. by apply Hf in Hfx.
Qed.

Lemma filter_length_mono {A} (P Q : A → Prop) `{∀ x, Decision (P x)}
    `{∀ x, Decision (Q x)} (l : list A) :
  (∀ x, P x → Q x) → (length (filter P l) ≤ length (filter Q l))%nat.
Proof.
  intros HPQ. induction l as [|x l IH]; [done|].
  rewrite !filter_cons.
  destruct (decide (P x)) as [HP|HP], (decide (Q x)) as [HQ|HQ]; simpl;
    [lia | by destruct HQ; auto | lia | lia].
Qed.

Lemma matches_ground_truth (q : string) (r : Message) :
  matches q r = true ↔ ground_truth q r.
Proof.
  unfold matches, ground_truth, substring.
  by rewrite orb_true_iff, !PyStrFacts.contains_spec.
Qed.

Lemma exact_hit_exact_term (q : string) (r : Message) :
  exact_hit q r = true ↔ exact_term q r.
Proof. unfold exact_hit, exact_term. apply bool_decide_eq_true. Qed.

Lemma substring_refl (s : string) : substring s s.
Proof. exists "", "". by rewrite PyStrFacts.str_app_nil_r. Qed.

(** An exact-term hit is a substring hit. *)
Lemma exact_term_ground_truth (q : string) (r : Message) :
  exact_term q r → ground_truth q r.
Proof.
  intros [Htok| <-]; [left | right; apply substring_refl].
  by apply PyStrFacts.contains_spec, PyStrFacts.split_contains.
Qed.

Lemma positions_where_nil (f : Message → bool) (msgs : list Message) :
  positions_where f msgs = [] ↔ List.filter f msgs = [].
Proof.
  rewrite <- !length_zero_iff_nil. by rewrite positions_where_length.
Qed.

(** [total] returned by a started optimized engine. *)
Lemma fast_records_length (store : list Message) (query : string) :
  normalized query ≠ "" →
  length (fast_records store query)
  = if decide (exact_count store (normalized query) = 0%nat)
    then ground_truth_count store (normalized query)
    else exact_count store (normalized query).
Proof.
  intros Hq. unfold fast_records, exact_count, ground_truth_count.
  rewrite (RunFacts.blank_false _ Hq).
  rewrite <- (filter_bool _ _ _ (matches_ground_truth (normalized query))).
  rewrite <- (filter_bool _ _ _ (exact_hit_exact_term (normalized query))).
  destruct (decide (positions_where _ _ = [])) as [He|He].
  - apply positions_where_nil in He. by rewrite He.
  - rewrite decide_False; [done|].
    rewrite length_zero_iff_nil. by rewrite <- positions_where_nil.
Qed.

End CountFacts.

(** * Multiplicities in the index lists *)

Module MultFacts.

Lemma multiplicity_app (p : nat) (l k : list nat) :
  multiplicity p (l ++ k) = (multiplicity p l + multiplicity p k)%nat.
Proof. unfold multiplicity. by rewrite filter_app, length_app. Qed.

Lemma multiplicity_replicate (p i n : nat) :
  multiplicity p (replicate n i) = if decide (i = p) then n else 0%nat.
Proof.
  unfold multiplicity. induction n as [|n IH]; simpl.
  - by destruct (decide (i = p)).
  - rewrite filter_cons. destruct (decide (i = p)); simpl; by rewrite IH.
Qed.

Lemma multiplicity_enum_from (g : Message → nat) (i p : nat)
    (l : list Message) :
  multiplicity p
    (concat (map (λ x, replicate (g x.2) x.1) (enum_from i l)))
  = if decide (i ≤ p)%nat
    then match l !! (p - i)%nat with Some m => g m | None => 0%nat end
    else 0%nat.
Proof.
  revert i. induction l as [|x l IH]; intros i.
  - unfold enum_from; simpl. by destruct (decide (i ≤ p)%nat).
  - rewrite EnumFacts.enum_from_cons. cbn [map concat fst snd].
    rewrite multiplicity_app, multiplicity_replicate, IH.
    destruct (decide (i = p)) as [->|Hne].
    + rewrite decide_False by lia. rewrite decide_True by lia.
      replace (p - p)%nat with 0%nat by lia. simpl. lia.
    + destruct (decide (S i ≤ p)%nat) as [Hle|Hle].
      * rewrite decide_True by lia.
        by replace (p - i)%nat with (S (p - S i)) by lia.
      * by rewrite decide_False by lia.
Qed.

End MultFacts.

(** * Pagination *)

Module PageFacts.
Import PyList.

Lemma page_count_ceil (n limit : Z) :
  1 ≤ limit → is_ceil_div n limit (page_count n limit).
Proof.
  intros Hl. unfold is_ceil_div, page_count.
  destruct (Z.gtb_spec limit 0) as [_|?]; [|lia].
  pose proof (Z.div_mod (n + limit - 1) limit ltac:(lia)) as Hdm.
  pose proof (Z.mod_pos_bound (n + limit - 1) limit ltac:(lia)) as Hmod.
  lia.
Qed.

Lemma page_count_nonneg (n limit : Z) : 0 ≤ n → 0 ≤ page_count n limit.
Proof.
  intros Hn. unfold page_count.
  destruct (Z.gtb_spec limit 0) as [Hl|?]; [|lia].
  apply Z.div_pos; lia.
Qed.

Lemma chunks_take_fmap {A} (l : list A) (L m : nat) :
  concat ((λ k, take L (drop (k * L) l)) <$> seq 0 m) = take (m * L) l.
Proof.
  induction m as [|m IH]; [by rewrite take_0|].
  rewrite seq_S, fmap_app, concat_app, IH. simpl.
  rewrite app_nil_r, take_take_drop. f_equal. lia.
Qed.

(** The pages [1 .. total_pages], one after the other, are the whole list. *)
Lemma pages_concat {A} (l : list A) (limit : Z) :
  1 ≤ limit →
  concat ((λ p, slice l ((p - 1) * limit) ((p - 1) * limit + limit))
            <$> page_numbers (page_count (Z.of_nat (length l)) limit)) = l.
Proof.
  intros Hl. unfold page_numbers.
  rewrite <- fmap_S_seq, <- !list_fmap_compose.
  erewrite list_fmap_ext;
    [|intros i k _; cbn [compose]; apply (SliceFacts.slice_page l limit k Hl)].
  rewrite chunks_take_fmap. apply take_ge.
  pose proof (page_count_ceil (Z.of_nat (length l)) limit Hl) as [_ Hc].
  pose proof (page_count_nonneg (Z.of_nat (length l)) limit ltac:(lia)).
  nia.
Qed.

Lemma page_beyond {A} (l : list A) (page limit : Z) :
  1 ≤ limit → page_count (Z.of_nat (length l)) limit < page →
  slice l ((page - 1) * limit) ((page - 1) * limit + limit) = [].
Proof.
  intros Hl Hp.
  pose proof (page_count_ceil (Z.of_nat (length l)) limit Hl) as [_ Hc].
  apply SliceFacts.slice_beyond; nia.
Qed.

(** A method whose response on every page is [paginated filtered ...]
    serves [filtered] over the pages [1 .. total_pages]. *)
Lemma pages_of_call (call : Z → outcome SearchResponse)
    (filtered : list Message) (limit : Z) (clock : Z → Z * Z) :
  1 ≤ limit →
  (∀ p, call p = Ok (paginated filtered p limit (clock p).1 (clock p).2)) →
  ∃ rs, all_pages call rs ∧ concat (items <$> rs) = filtered.
Proof.
  intros Hl Hcall.
  exists ((λ p, paginated filtered p limit (clock p).1 (clock p).2)
            <$> page_numbers (page_count (Z.of_nat (length filtered)) limit)).
  split.
  - eexists. split; [apply Hcall|]. cbn [total_pages paginated].
    apply Forall2_fmap_r, Forall_Forall2_diag, Forall_forall.
    intros p _. apply Hcall.
  - rewrite <- list_fmap_compose.
    erewrite list_fmap_ext; [by apply pages_concat | done].
Qed.

Lemma seq_sorted (i n : nat) : StronglySorted lt (seq i n).
Proof.
  revert i. induction n as [|n IH]; intros i; [constructor|].
  simpl. constructor; [apply IH|].
  apply Forall_forall. intros p Hp%elem_of_seq. lia.
Qed.

End PageFacts.

(** * Blank queries *)

Module BlankFacts.

Lemma all_space_lstrip (s : string) :
  all_space s = true → PyStr.lstrip s = "".
Proof.
  induction s as [|c s IH]; simpl; [done|].
  destruct (PyStr.is_space c); simpl; [exact IH | done].
Qed.

(** A whitespace-only query takes the match-all branch. *)
Lemma all_space_blank (query : string) :
  all_space query = true → blank query = true.
Proof.
  intros Hq. unfold blank, PyStr.strip.
  rewrite (all_space_lstrip _ Hq). simpl. apply orb_true_r.
Qed.

End BlankFacts.

(** * The claims *)

Import OptimizedMessageSearchEngine.

(** C1, as stated, fails for [search_fast] : on [overlap_store] the query
    "paris" is found through the index in record 0 only, so [total] is 1,
    while two records contain "paris" as a substring. *)
Lemma C1_search_fast_undercounts :
  result (search_fast "paris" 1 10 0 0) (optimized_started overlap_store)
  = Ok (paginated [record "Sophia" "Weekend in Paris"] 1 10 0 0)
  ∧ total (paginated [record "Sophia" "Weekend in Paris"] 1 10 0 0) = 1
  ∧ ground_truth_count overlap_store (normalized "paris") = 2%nat.
Proof. repeat split; by vm_compute. Qed.

(** C1 (amended). For a query that is non-empty once lower-cased and
    trimmed, [search] returns as [total] the number of records that have
    the normalized query as a substring of the lower-cased message or user
    name. [search_fast] on a started engine returns that number when no
    record has the normalized query as a whole token or as its whole
    lower-cased user name; otherwise it returns the number of records that
    do, which is at most the ground-truth count. *)
Theorem C1_total_ground_truth (s : MessageSearchEngine.self)
    (store : list Message) (query : string) (page limit t0 t1 : Z) :
  normalized query ≠ "" →
  (∃ r, result (MessageSearchEngine.search query page limit t0 t1) s = Ok r
        ∧ total r
          = Z.of_nat (ground_truth_count (MessageSearchEngine.messages s)
                        (normalized query)))
  ∧ (∃ r, result (search_fast query page limit t0 t1)
            (optimized_started store) = Ok r
          ∧ total r
            = Z.of_nat
                (if decide (exact_count store (normalized query) = 0%nat)
                 then ground_truth_count store (normalized query)
                 else exact_count store (normalized query)))
  ∧ (exact_count store (normalized query)
     ≤ ground_truth_count store (normalized query))%nat.
Proof.
  intros Hq. repeat split.
  - eexists. unfold result. rewrite RunFacts.search_run. split; [done|].
    rewrite (RunFacts.blank_false _ Hq). cbn [total paginated fst].
    unfold ground_truth_count.
    by rewrite (CountFacts.filter_bool _ _ _
                  (CountFacts.matches_ground_truth (normalized query))).
  - eexists. unfold result. rewrite RunFacts.started_search_fast_run.
    split; [done|]. cbn [total paginated fst].
    by rewrite CountFacts.fast_records_length.
  - apply CountFacts.filter_length_mono, CountFacts.exact_term_ground_truth.
Qed.

(** C1 on [sample_store] : the query "Paris" is non-empty once normalized
    and both engines count two records. *)
Lemma C1_total_ground_truth_witness :
  normalized "Paris" ≠ ""
  ∧ (∃ r, result (MessageSearchEngine.search "Paris" 1 10 0 0)
            (main_started sample_store) = Ok r ∧ total r = 2)
  ∧ (∃ r, result (search_fast "Paris" 1 10 0 0)
            (optimized_started sample_store) = Ok r ∧ total r = 2).
Proof.
  assert (normalized "Paris" ≠ "") as Hq by (by vm_compute).
  destruct (C1_total_ground_truth (main_started sample_store) sample_store
              "Paris" 1 10 0 0 Hq) as ((r & Hr & Ht) & (r' & Hr' & Ht') & _).
  split; [exact Hq|]. split.
  - exists r. split; [exact Hr|]. rewrite Ht. by vm_compute.
  - exists r'. split; [exact Hr'|]. rewrite Ht'. by vm_compute.
Defined.

(** C2. In [search_fast], for a query that is non-empty once normalized :
    when the union of the two index lists for that key is non-empty the
    Match Set is exactly that union, without repeats and ascending, and it
    is determined by the two lists alone (the records are not scanned);
    when it is empty the Match Set is the result of the scan of all
    records. The Match Set is the list of positions whose records
    [search_fast] paginates. *)
Theorem C2_exact_then_fallback (s : self) (query : string) :
  normalized query ≠ "" →
  let q := normalized query in
  let candidates : gset nat :=
    list_to_set (postings (message_index s) q ++ postings (user_index s) q) in
  (candidates ≠ ∅ →
     fast_match_set s query = PyList.sorted candidates
     ∧ ∀ s', postings (message_index s') q = postings (message_index s) q →
             postings (user_index s') q = postings (user_index s) q →
             fast_match_set s' query = fast_match_set s query)
  ∧ (candidates = ∅ →
     fast_match_set s query = positions_where (matches q) (messages s))
  ∧ StronglySorted lt (PyList.sorted candidates)
  ∧ (∀ p, p ∈ PyList.sorted candidates
          ↔ p ∈ postings (message_index s) q ∨ p ∈ postings (user_index s) q)
  ∧ ∀ page limit t0 t1,
      search_fast query page limit t0 t1 s
      = (match mapM (messages s !!.) (fast_match_set s query) with
         | Some filtered => Ok (paginated filtered page limit t0 t1)
         | None => Raise IndexError
         end, s).
Proof.
  intros Hq q candidates.
  assert (∀ s', postings (message_index s') q = postings (message_index s) q →
                postings (user_index s') q = postings (user_index s) q →
                exact_matches s' q = candidates) as Hexact.
  { intros s' Hmi Hui. rewrite ResolveFacts.exact_matches_postings, Hmi, Hui.
    unfold candidates. by rewrite list_to_set_app_L. }
  assert (∀ s', fast_match_set s' query
                = PyList.sorted (matched_indices s' q)) as Hset.
  { intros s'. unfold fast_match_set. by rewrite (RunFacts.blank_false _ Hq). }
  repeat split.
  - rewrite Hset. unfold matched_indices. rewrite (Hexact s) by done.
    by rewrite decide_False.
  - intros s' Hmi Hui. rewrite !Hset. unfold matched_indices.
    rewrite (Hexact s), (Hexact s') by done. by rewrite !decide_False.
  - intros Hnone. rewrite Hset. unfold matched_indices.
    rewrite (Hexact s) by done. rewrite decide_True by done.
    rewrite Hnone. apply ResolveFacts.sorted_substring_scan.
  - apply SortedFacts.sorted_lt.
  - rewrite SortedFacts.elem_of_sorted. unfold candidates.
    by rewrite elem_of_list_to_set, elem_of_app.
  - rewrite SortedFacts.elem_of_sorted. unfold candidates.
    by rewrite elem_of_list_to_set, elem_of_app.
  - intros. apply RunFacts.search_fast_run.
Qed.

(** C2 on [sample_store] : "Paris" is found through the message index at
    positions 0 and 1. *)
Lemma C2_exact_then_fallback_witness :
  normalized "Paris" ≠ ""
  ∧ fast_match_set (optimized_started sample_store) "Paris" = [0%nat; 1%nat]
  ∧ StronglySorted lt
      (PyList.sorted
         (list_to_set
            (postings (message_index (optimized_started sample_store))
               (normalized "Paris")
             ++ postings (user_index (optimized_started sample_store))
                  (normalized "Paris")))).
Proof.
  assert (normalized "Paris" ≠ "") as Hq by (by vm_compute).
  destruct (C2_exact_then_fallback (optimized_started sample_store) "Paris" Hq)
    as (Hhit & _ & Hsorted & _).
  split; [exact Hq|]. split; [|exact Hsorted].
  destruct Hhit as [-> _]; by vm_compute.
Defined.

(** C3, as stated, fails : a record whose message holds the same token
    twice has its position twice in that token's list. *)
Lemma C3_duplicate_position :
  message_index (optimized_started [record "Sophia" "Paris Paris"]) !! "paris"
  = Some [0%nat; 0%nat]
  ∧ ¬ NoDup [0%nat; 0%nat].
Proof.
  split; [by vm_compute|].
  intros [Hnotin _]%NoDup_cons. apply Hnotin. by left.
Qed.

(** C3 (amended). [_build_indices] appends a record's position to a token's
    list once per occurrence of the token in the record's lower-cased
    message : after start-up, position [p] occurs in the list of [key] as
    many times as [key] occurs among the tokens of record [p], and never
    when there is no record [p]. *)
Theorem C3_position_per_occurrence (store : list Message) (key : string)
    (p : nat) :
  multiplicity p (postings (message_index (optimized_started store)) key)
  = match store !! p with
    | Some m => occurrences key (tokens m)
    | None => 0%nat
    end.
Proof.
  destruct (ResolveFacts.started_fields store) as (_ & _ & Hmi & _).
  rewrite Hmi. change (PyList.enumerate store) with (enum_from 0 store).
  rewrite (MultFacts.multiplicity_enum_from (λ m, occurrences key (tokens m))).
  rewrite decide_True by lia. by replace (p - 0)%nat with p by lia.
Qed.

(** C4. For a limit of at least 1, the [items] of the pages
    [1 .. total_pages] of [search], one after the other, are the records at
    the positions of the Match Set, which is strictly ascending (so no
    record is repeated) and holds exactly the positions of the matched
    records (so none is omitted); the same holds for [search_fast] on a
    started engine. [clock] gives the clock readings of each call. *)
Theorem C4_pages_partition (s : MessageSearchEngine.self)
    (store : list Message) (query : string) (limit : Z)
    (clock : Z → Z * Z) :
  1 ≤ limit →
  (∃ rs,
     all_pages (λ p, result (MessageSearchEngine.search query p limit
                               (clock p).1 (clock p).2) s) rs
     ∧ records_at (MessageSearchEngine.messages s) (main_match_set s query)
         (concat (items <$> rs)))
  ∧ StronglySorted lt (main_match_set s query)
  ∧ (∀ p, p ∈ main_match_set s query
          ↔ ∃ m, MessageSearchEngine.messages s !! p = Some m
                 ∧ (normalized query = ""
                    ∨ ground_truth (normalized query) m))
  ∧ (∃ rs,
       all_pages (λ p, result (search_fast query p limit
                                 (clock p).1 (clock p).2)
                         (optimized_started store)) rs
       ∧ records_at store (fast_match_set (optimized_started store) query)
           (concat (items <$> rs)))
  ∧ StronglySorted lt (fast_match_set (optimized_started store) query)
  ∧ (∀ p, p ∈ fast_match_set (optimized_started store) query
          → ∃ m, store !! p = Some m
                 ∧ (normalized query = ""
                    ∨ ground_truth (normalized query) m)).
Proof.
  intros Hl. repeat split.
  - destruct (PageFacts.pages_of_call
                (λ p, result (MessageSearchEngine.search query p limit
                                (clock p).1 (clock p).2) s)
                _ limit clock Hl
                (λ p, f_equal fst (RunFacts.search_run query p limit
                                     (clock p).1 (clock p).2 s)))
      as (rs & Hrs & Hcat).
    exists rs. split; [exact Hrs|]. rewrite Hcat.
    apply mapM_Some, RunFacts.main_match_set_deref.
  - unfold main_match_set. destruct (blank query);
      [apply PageFacts.seq_sorted | apply positions_where_sorted].
  - unfold main_match_set. rewrite RunFacts.blank_normalized.
    destruct (normalized query) eqn:Hq; cbn [PyStr.is_empty].
    + intros Hp%elem_of_seq. destruct (lookup_lt_is_Some_2
        (MessageSearchEngine.messages s) p ltac:(lia)) as [m Hm].
      exists m. split; [done | by left].
    + intros (m & Hm & Hf)%elem_of_positions_where. exists m.
      split; [done | right; by apply CountFacts.matches_ground_truth].
  - unfold main_match_set. rewrite RunFacts.blank_normalized.
    intros (m & Hm & Hq). destruct (normalized query) eqn:Hn;
      cbn [PyStr.is_empty].
    + apply elem_of_seq. apply lookup_lt_Some in Hm. lia.
    + apply elem_of_positions_where. exists m. split; [done|].
      destruct Hq as [?|Hq]; [done|].
      by apply CountFacts.matches_ground_truth.
  - destruct (PageFacts.pages_of_call
                (λ p, result (search_fast query p limit
                                (clock p).1 (clock p).2)
                        (optimized_started store))
                _ limit clock Hl
                (λ p, f_equal fst (RunFacts.started_search_fast_run store
                                     query p limit (clock p).1 (clock p).2)))
      as (rs & Hrs & Hcat).
    exists rs. split; [exact Hrs|]. rewrite Hcat.
    apply mapM_Some, RunFacts.started_deref.
  - rewrite RunFacts.started_match_set. destruct (blank query);
      [apply PageFacts.seq_sorted|].
    destruct (decide _); apply positions_where_sorted.
  - rewrite RunFacts.started_match_set, RunFacts.blank_normalized.
    destruct (normalized query) eqn:Hq; cbn [PyStr.is_empty].
    + intros p Hp%elem_of_seq. destruct (lookup_lt_is_Some_2 store p
        ltac:(lia)) as [m Hm].
      exists m. split; [done | by left].
    + destruct (decide _);
        intros p (m & Hm & Hf)%elem_of_positions_where; exists m;
        (split; [done | right]).
      * by apply CountFacts.matches_ground_truth.
      * by apply CountFacts.exact_term_ground_truth,
          CountFacts.exact_hit_exact_term.
Qed.

(** C4 on [sample_store] with two records per page. *)
Lemma C4_pages_partition_witness :
  1 ≤ 2
  ∧ ∃ rs,
      all_pages (λ p, result (MessageSearchEngine.search "paris" p 2 0 0)
                        (main_started sample_store)) rs
      ∧ records_at (MessageSearchEngine.messages (main_started sample_store))
          (main_match_set (main_started sample_store) "paris")
          (concat (items <$> rs)).
Proof.
  assert (1 ≤ 2) as Hl by lia.
  split; [exact Hl|].
  exact (proj1 (C4_pages_partition (main_started sample_store) sample_store
                  "paris" 2 (λ _, (0, 0)) Hl)).
Defined.

(** C5. A query that is empty or holds whitespace only matches every
    record : [total] is the number of stored messages, for every page and
    limit, in [search] and in [search_fast]. In [search_fast] this holds
    whatever the two indices contain, and the response depends on the
    stored messages alone : the branch is taken before any index lookup. *)
Theorem C5_blank_query_matches_all (s : MessageSearchEngine.self)
    (s' : self) (query : string) (page limit t0 t1 : Z) :
  all_space query = true →
  (∃ r, result (MessageSearchEngine.search query page limit t0 t1) s = Ok r
        ∧ total r = Z.of_nat (length (MessageSearchEngine.messages s)))
  ∧ (∃ r, result (search_fast query page limit t0 t1) s' = Ok r
          ∧ total r = Z.of_nat (length (messages s')))
  ∧ fast_match_set s' query = seq 0 (length (messages s'))
  ∧ ∀ s'', messages s'' = messages s' →
           result (search_fast query page limit t0 t1) s''
           = result (search_fast query page limit t0 t1) s'.
Proof.
  intros Hq%BlankFacts.all_space_blank.
  assert (∀ s0, result (search_fast query page limit t0 t1) s0
                = Ok (paginated (messages s0) page limit t0 t1)) as Hfast.
  { intros s0. unfold result. rewrite RunFacts.search_fast_run.
    unfold fast_match_set. by rewrite Hq, RunFacts.deref_all. }
  repeat split.
  - eexists. unfold result. rewrite RunFacts.search_run, Hq. done.
  - eexists. rewrite Hfast. done.
  - unfold fast_match_set. by rewrite Hq.
  - intros s'' Hm. by rewrite !Hfast, Hm.
Qed.

(** C5 on [sample_store] with a query of two spaces. *)
Lemma C5_blank_query_matches_all_witness :
  all_space "  " = true
  ∧ ∃ r, result (search_fast "  " 1 2 0 0) (optimized_started sample_store)
         = Ok r
         ∧ total r
           = Z.of_nat (length (messages (optimized_started sample_store))).
Proof.
  assert (all_space "  " = true) as Hq by reflexivity.
  split; [exact Hq|].
  exact (proj1 (proj2 (C5_blank_query_matches_all
                         (main_started sample_store)
                         (optimized_started sample_store)
                         "  " 1 2 0 0 Hq))).
Defined.

(** C6. [total_pages] is the ceiling of [total / limit] when the limit is
    at least 1, and is 1 when the limit is at most 0; in both cases the
    call returns a response (no division error), with a [total] that is
    not negative. *)
Theorem C6_total_pages (s : MessageSearchEngine.self) (store : list Message)
    (query : string) (page limit t0 t1 : Z) :
  (∃ r, result (MessageSearchEngine.search query page limit t0 t1) s = Ok r
        ∧ 0 ≤ total r
        ∧ (1 ≤ limit → is_ceil_div (total r) limit (total_pages r))
        ∧ (limit ≤ 0 → total_pages r = 1))
  ∧ (∃ r, result (search_fast query page limit t0 t1)
            (optimized_started store) = Ok r
          ∧ 0 ≤ total r
          ∧ (1 ≤ limit → is_ceil_div (total r) limit (total_pages r))
          ∧ (limit ≤ 0 → total_pages r = 1)).
Proof.
  assert (∀ filtered,
    let r := paginated filtered page limit t0 t1 in
    0 ≤ total r
    ∧ (1 ≤ limit → is_ceil_div (total r) limit (total_pages r))
    ∧ (limit ≤ 0 → total_pages r = 1)) as Hpag.
  { intros filtered. cbn [total total_pages paginated]. repeat split.
    - lia.
    - apply PageFacts.page_count_ceil; lia.
    - apply PageFacts.page_count_ceil; lia.
    - intros Hl. unfold page_count.
      by destruct (Z.gtb_spec limit 0); [lia|]. }
  split; eexists; (split; [|apply Hpag]); unfold result.
  - by rewrite RunFacts.search_run.
  - by rewrite RunFacts.started_search_fast_run.
Qed.

(** C6 on [sample_store] : three records in pages of two make two pages,
    and a limit of 0 gives one page. *)
Lemma C6_total_pages_witness :
  (∃ r, result (MessageSearchEngine.search "" 1 2 0 0)
          (main_started sample_store) = Ok r
        ∧ total r = 3 ∧ total_pages r = 2)
  ∧ (∃ r, result (MessageSearchEngine.search "" 1 0 0 0)
            (main_started sample_store) = Ok r
          ∧ total_pages r = 1).
Proof.
  split.
  - destruct (C6_total_pages (main_started sample_store) sample_store
                "" 1 2 0 0) as [(r & Hr & _ & Hceil & _) _].
    exists r. split; [exact Hr|].
    specialize (Hceil ltac:(lia)). unfold is_ceil_div in Hceil.
    assert (total r = 3) as Ht.
    { revert Hr. unfold result. rewrite RunFacts.search_run.
      by intros [= <-]. }
    split; [exact Ht | lia].
  - destruct (C6_total_pages (main_started sample_store) sample_store
                "" 1 0 0 0) as [(r & Hr & _ & _ & Hone) _].
    exists r. split; [exact Hr | apply Hone; lia].
Defined.

(** C7. For a limit of at least 1 and a page of at least 1, a call returns
    a response whatever the page; its [total] and [total_pages] are those
    of the call for any other page, and when the page exceeds
    [total_pages] its [items] are empty. No error is raised. *)
Theorem C7_page_beyond_last (s : MessageSearchEngine.self)
    (store : list Message) (query : string)
    (page page' limit t0 t1 t0' t1' : Z) :
  1 ≤ limit → 1 ≤ page →
  (∃ r r',
     result (MessageSearchEngine.search query page limit t0 t1) s = Ok r
     ∧ result (MessageSearchEngine.search query page' limit t0' t1') s = Ok r'
     ∧ total r = total r' ∧ total_pages r = total_pages r'
     ∧ (total_pages r < page → items r = []))
  ∧ (∃ r r',
       result (search_fast query page limit t0 t1) (optimized_started store)
       = Ok r
       ∧ result (search_fast query page' limit t0' t1')
           (optimized_started store) = Ok r'
       ∧ total r = total r' ∧ total_pages r = total_pages r'
       ∧ (total_pages r < page → items r = [])).
Proof.
  intros Hl Hp. split; do 2 eexists; unfold result.
  - rewrite !RunFacts.search_run. repeat split.
    cbn [total_pages items paginated]. by apply PageFacts.page_beyond.
  - rewrite !RunFacts.started_search_fast_run. repeat split.
    cbn [total_pages items paginated]. by apply PageFacts.page_beyond.
Qed.

(** C7 on [sample_store] : page 5 of the two records found for "paris" is
    empty and reports the same [total] as page 1. *)
Lemma C7_page_beyond_last_witness :
  1 ≤ 2 ∧ 1 ≤ 5
  ∧ ∃ r r',
      result (search_fast "paris" 5 2 0 0) (optimized_started sample_store)
      = Ok r
      ∧ result (search_fast "paris" 1 2 0 0) (optimized_started sample_store)
        = Ok r'
      ∧ total r = total r' ∧ items r = [].
Proof.
  assert (1 ≤ 2) as Hl by lia. assert (1 ≤ 5) as Hp by lia.
  split; [exact Hl|]. split; [exact Hp|].
  destruct (C7_page_beyond_last (main_started sample_store) sample_store
              "paris" 5 1 2 0 0 0 0 Hl Hp)
    as [_ (r & r' & Hr & Hr' & Ht & _ & Hitems)].
  exists r, r'. split; [exact Hr|]. split; [exact Hr'|].
  split; [exact Ht|]. apply Hitems.
  revert Hr. unfold result. rewrite RunFacts.started_search_fast_run.
  intros [= <-]. by vm_compute.
Defined.

(** C8. Search is case-insensitive : two queries with the same lower-cased
    form get responses that agree on every field but the query time, in
    [search] and in [search_fast], whatever the engine state; so do a
    query and its lower-cased form. *)
Theorem C8_case_insensitive (s : MessageSearchEngine.self) (s' : self)
    (q1 q2 : string) (page limit t0 t1 t0' t1' : Z) :
  PyStr.lower q1 = PyStr.lower q2 →
  agree_up_to_time
    (result (MessageSearchEngine.search q1 page limit t0 t1) s)
    (result (MessageSearchEngine.search q2 page limit t0' t1') s)
  ∧ agree_up_to_time
      (result (search_fast q1 page limit t0 t1) s')
      (result (search_fast q2 page limit t0' t1') s')
  ∧ agree_up_to_time
      (result (MessageSearchEngine.search q1 page limit t0 t1) s)
      (result (MessageSearchEngine.search (PyStr.lower q1) page limit
                 t0' t1') s)
  ∧ agree_up_to_time
      (result (search_fast q1 page limit t0 t1) s')
      (result (search_fast (PyStr.lower q1) page limit t0' t1') s').
Proof.
  assert (∀ a b, PyStr.lower a = PyStr.lower b →
    agree_up_to_time
      (result (MessageSearchEngine.search a page limit t0 t1) s)
      (result (MessageSearchEngine.search b page limit t0' t1') s)
    ∧ agree_up_to_time
        (result (search_fast a page limit t0 t1) s')
        (result (search_fast b page limit t0' t1') s')) as Hpair.
  { intros a b Hab.
    assert (normalized a = normalized b) as Hn
      by (unfold normalized; by rewrite Hab).
    assert (blank a = blank b) as Hb
      by (by rewrite !RunFacts.blank_normalized, Hn).
    unfold result. rewrite !RunFacts.search_run, !RunFacts.search_fast_run.
    unfold fast_match_set. rewrite Hb, Hn. split; [done|].
    cbn [fst]. by destruct (mapM _ _). }
  intros Hq. split; [apply (Hpair q1 q2 Hq)|].
  split; [apply (Hpair q1 q2 Hq)|].
  by split; apply (Hpair q1 (PyStr.lower q1));
    rewrite PyStrFacts.lower_idemp.
Qed.

(** C8 on [sample_store] : "Paris" and "PARIS" get the same response. *)
Lemma C8_case_insensitive_witness :
  PyStr.lower "Paris" = PyStr.lower "PARIS"
  ∧ agree_up_to_time
      (result (search_fast "Paris" 1 10 0 3) (optimized_started sample_store))
      (result (search_fast "PARIS" 1 10 5 9) (optimized_started sample_store)).
Proof.
  assert (PyStr.lower "Paris" = PyStr.lower "PARIS") as Hq by reflexivity.
  split; [exact Hq|].
  exact (proj1 (proj2 (C8_case_insensitive (main_started sample_store)
                         (optimized_started sample_store)
                         "Paris" "PARIS" 1 10 0 3 5 9 Hq))).
Defined.

(** C9. A call to [search] or to [search_fast] leaves the engine object as
    it was : the messages, the [loaded] flag and, for the optimized engine,
    the two indices, for every state, query, page, limit and clock, also
    when the call raises. *)
Theorem C9_search_frame (s : MessageSearchEngine.self) (s' : self)
    (query : string) (page limit t0 t1 : Z) :
  final (MessageSearchEngine.search query page limit t0 t1) s = s
  ∧ final (search_fast query page limit t0 t1) s' = s'.
Proof.
  unfold final.
  by rewrite RunFacts.search_run, RunFacts.search_fast_run.
Qed.

(** C10. Two calls with the same query, page and limit, the second made on
    the engine as the first left it and with other clock readings, return
    responses that agree on [total], [page], [limit], [total_pages] and
    [items]. *)
Theorem C10_deterministic (s : MessageSearchEngine.self) (s' : self)
    (query : string) (page limit t0 t1 t0' t1' : Z) :
  agree_up_to_time
    (result (MessageSearchEngine.search query page limit t0 t1) s)
    (result (MessageSearchEngine.search query page limit t0' t1')
       (final (MessageSearchEngine.search query page limit t0 t1) s))
  ∧ agree_up_to_time
      (result (search_fast query page limit t0 t1) s')
      (result (search_fast query page limit t0' t1')
         (final (search_fast query page limit t0 t1) s')).
Proof.
  unfold result, final.
  rewrite !RunFacts.search_run, !RunFacts.search_fast_run. cbn [fst snd].
  split; [done|]. by destruct (mapM _ _).
Qed.

(** * Further properties : start-up ingestion *)

Module IngestFacts.

Lemma page_items (db : list Message) (k : nat) :
  PyList.slice db (Z.of_nat (100 * k)) (Z.of_nat (100 * k) + 100)
  = take 100 (drop (100 * k) db).
Proof.
  rewrite SliceFacts.slice_nonneg by lia. f_equal; [lia|]. f_equal. lia.
Qed.

(** With no three requests in a row refused, one page is fetched within
    the three attempts. *)
Lemma fetch_page_rate_limited (busy : nat → bool) (db : list Message)
    (n : nat) (skip : Z) :
  (∀ m, busy m && busy (S m) && busy (S (S m)) = false) →
  ∃ n', OptimizedApp.fetch_page 3 (rate_limited busy db) n skip
        = (Some (PyList.slice db skip (skip + 100),
                 Z.of_nat (length db)), n').
Proof.
  intros Hbusy. specialize (Hbusy n). unfold rate_limited. cbn.
  destruct (busy n); cbn; [|by eexists].
  destruct (busy (S n)); cbn; [|by eexists].
  destruct (busy (S (S n))); cbn; [done | by eexists].
Qed.

Lemma optimized_fetch_step (fuel : nat) (client : Upstream) (n n' : nat)
    (skip total : Z) (all_messages items : list Message) :
  OptimizedApp.fetch_page 3 client n skip = (Some (items, total), n') →
  OptimizedApp.fetch_loop (S fuel) client n skip all_messages
  = if bool_decide (items = []) then Some all_messages
    else if Z.of_nat (length (all_messages ++ items)) >=? total
         then Some (all_messages ++ items)
         else OptimizedApp.fetch_loop fuel client n' (skip + 100)
                (all_messages ++ items).
Proof.
  intros Hpage. cbn [OptimizedApp.fetch_loop]. rewrite Hpage.
  by destruct (bool_decide (items = [])).
Qed.

Lemma optimized_fetch_pages (busy : nat → bool) (db : list Message) :
  (∀ m, busy m && busy (S m) && busy (S (S m)) = false) →
  ∀ fuel k n,
    (length db < 100 * (k + S fuel))%nat →
    OptimizedApp.fetch_loop (S fuel) (rate_limited busy db) n
      (Z.of_nat (100 * k)) (take (100 * k) db) = Some db.
Proof.
  intros Hbusy. induction fuel as [|fuel IH]; intros k n Hlen;
    destruct (fetch_page_rate_limited busy db n (Z.of_nat (100 * k)) Hbusy)
      as [n' Hpage];
    rewrite (optimized_fetch_step _ _ _ _ _ _ _ _ Hpage), page_items;
    destruct (decide (take 100 (drop (100 * k) db) = [])) as [Hnil|Hnil].
  - rewrite bool_decide_eq_true_2 by done.
    f_equal. apply take_ge.
    apply (f_equal length) in Hnil. rewrite length_take, length_drop in Hnil.
    cbn [length] in Hnil. lia.
  - rewrite bool_decide_eq_false_2 by done.
    rewrite take_take_drop.
    destruct (Z.geb_spec (Z.of_nat (length (take (100 * k + 100) db)))
                (Z.of_nat (length db))) as [_|Hlt].
    + f_equal. apply take_ge. lia.
    + rewrite length_take in Hlt. lia.
  - rewrite bool_decide_eq_true_2 by done.
    f_equal. apply take_ge.
    apply (f_equal length) in Hnil. rewrite length_take, length_drop in Hnil.
    cbn [length] in Hnil. lia.
  - rewrite bool_decide_eq_false_2 by done.
    rewrite take_take_drop.
    destruct (Z.geb_spec (Z.of_nat (length (take (100 * k + 100) db)))
                (Z.of_nat (length db))) as [Hge|Hlt].
    + f_equal. apply take_ge. rewrite length_take in Hge. lia.
    + rewrite length_take in Hlt.
      replace (Z.of_nat (100 * k) + 100) with (Z.of_nat (100 * S k)) by lia.
      replace (100 * k + 100)%nat with (100 * S k)%nat by lia.
      apply IH. lia.
Qed.

(** One iteration of the loop of main.py against a healthy upstream. *)
Lemma main_fetch_step (fuel : nat) (db : list Message) (n : nat) (skip : Z)
    (all_messages : list Message) :
  MainApp.fetch_loop (S fuel) (serving db) n skip all_messages
  = let items := PyList.slice db skip (skip + 100) in
    let total := Z.of_nat (length db) in
    if bool_decide (items = []) then Some all_messages
    else if Z.of_nat (length (all_messages ++ items)) >=? total
         then Some (all_messages ++ items)
         else if Z.of_nat (length ((all_messages ++ items) ++ items))
                 >=? total
              then Some ((all_messages ++ items) ++ items)
              else MainApp.fetch_loop fuel (serving db) (S n)
                     (skip + 100 + 100) ((all_messages ++ items) ++ items).
Proof.
  cbn [MainApp.fetch_loop serving page_of status_code json body_items
       body_total].
  change (default [] (Some ?x)) with x. cbn zeta.
  by destruct (bool_decide (PyList.slice db skip (skip + 100) = [])).
Qed.

(** Against a healthy upstream the loop of main.py ends, and only adds to
    what it has collected. *)
Lemma main_fetch_extends (db : list Message) :
  ∀ fuel all_messages n skip,
    (length db ≤ length all_messages + 2 * S fuel)%nat →
    ∃ rest, MainApp.fetch_loop (S fuel) (serving db) n skip all_messages
            = Some (all_messages ++ rest).
Proof.
  induction fuel as [|fuel IH]; intros all_messages n skip Hlen;
    rewrite main_fetch_step; cbn zeta;
    set (items := PyList.slice db skip (skip + 100));
    (destruct (bool_decide_reflect (items = [])) as [Hnil|Hnil];
       [exists []; by rewrite app_nil_r|]);
    (destruct (Z.geb_spec (Z.of_nat (length (all_messages ++ items)))
                 (Z.of_nat (length db))); [by exists items|]);
    (destruct (Z.geb_spec
                 (Z.of_nat (length ((all_messages ++ items) ++ items)))
                 (Z.of_nat (length db)));
       [exists (items ++ items); by rewrite app_assoc|]);
    assert (length items ≠ 0%nat) by (by destruct items);
    rewrite !length_app in *.
  - lia.
  - destruct (IH ((all_messages ++ items) ++ items) (S n) (skip + 100 + 100))
      as [rest Hrest]; [rewrite !length_app; lia|].
    exists (items ++ items ++ rest). rewrite Hrest.
    by rewrite <- !app_assoc.
Qed.

(** The total returned by a page attempt is one the upstream reported. *)
Lemma fetch_page_total (client : Upstream) (T : Z) :
  (∀ n skip r d, client n skip 100 = Some r → json r = Some d →
                 default 0 (body_total d) ≤ T) →
  ∀ retries n skip items total n',
    OptimizedApp.fetch_page retries client n skip = (Some (items, total), n') →
    total ≤ T.
Proof.
  intros Hbound. induction retries as [|retries IH];
    intros n skip items total n'; cbn [OptimizedApp.fetch_page]; [done|].
  destruct (client n skip 100) as [r|] eqn:Hr; [|apply IH].
  destruct ((status_code r =? 403) || (status_code r =? 400)); [apply IH|].
  destruct (negb (status_code r =? 200)); [done|].
  destruct (json r) as [d|] eqn:Hd; [|apply IH].
  intros [= <- <- <-]. by eapply Hbound.
Qed.

(** With bounded totals the page loop ends. *)
Lemma optimized_fetch_terminates (client : Upstream) (T : Z) :
  (∀ n skip r d, client n skip 100 = Some r → json r = Some d →
                 default 0 (body_total d) ≤ T) →
  ∀ fuel all_messages n skip,
    T ≤ Z.of_nat (length all_messages) + Z.of_nat fuel →
    ∃ fetched, OptimizedApp.fetch_loop (S fuel) client n skip all_messages
               = Some fetched.
Proof.
  intros Hbound. induction fuel as [|fuel IH]; intros all_messages n skip HT;
    destruct (OptimizedApp.fetch_page 3 client n skip)
      as [[[items total]|] n'] eqn:Hpage;
    try (cbn [OptimizedApp.fetch_loop]; rewrite Hpage; by eexists);
    pose proof (fetch_page_total client T Hbound _ _ _ _ _ _ Hpage) as Htot;
    rewrite (optimized_fetch_step _ _ _ _ _ _ _ _ Hpage);
    (destruct (bool_decide_reflect (items = [])) as [Hnil|Hnil];
       [by eexists|]);
    (destruct (Z.geb_spec (Z.of_nat (length (all_messages ++ items))) total)
       as [Hge|Hlt]; [by eexists|]);
    assert (length items ≠ 0%nat) by (by destruct items);
    rewrite length_app in Hlt.
  - lia.
  - apply IH. rewrite length_app. lia.
Qed.


(** A page attempt against an upstream that serves [db], however often it
    refuses, gives up or returns the page asked for. *)
Lemma fetch_page_any_refusals (busy : nat → bool) (db : list Message)
    (skip : Z) :
  ∀ retries n,
    (∃ n', OptimizedApp.fetch_page retries (rate_limited busy db) n skip
           = (None, n'))
    ∨ (∃ n', OptimizedApp.fetch_page retries (rate_limited busy db) n skip
             = (Some (PyList.slice db skip (skip + 100),
                      Z.of_nat (length db)), n')).
Proof.
  induction retries as [|retries IH]; intros n; [left; by eexists|].
  cbn [OptimizedApp.fetch_page].
  destruct (busy n) eqn:Hbusy.
  - assert (rate_limited busy db n skip 100
            = Some {| status_code := 403; json := None |}) as ->
      by (unfold rate_limited; by rewrite Hbusy).
    apply IH.
  - assert (rate_limited busy db n skip 100 = Some (page_of db skip 100))
      as -> by (unfold rate_limited; by rewrite Hbusy).
    right. by eexists.
Qed.

(** Whatever the refusals, what is collected is a run of whole pages from
    the start of [db]. *)
Lemma optimized_fetch_prefix (busy : nat → bool) (db : list Message) :
  ∀ fuel k n fetched,
    OptimizedApp.fetch_loop fuel (rate_limited busy db) n
      (Z.of_nat (100 * k)) (take (100 * k) db) = Some fetched →
    ∃ j, fetched = take (100 * j) db.
Proof.
  induction fuel as [|fuel IH]; intros k n fetched; [done|].
  destruct (fetch_page_any_refusals busy db (Z.of_nat (100 * k)) 3 n)
    as [[n' Hpage]|[n' Hpage]].
  - cbn [OptimizedApp.fetch_loop]. rewrite Hpage. intros [= <-]. by exists k.
  - rewrite (optimized_fetch_step _ _ _ _ _ _ _ _ Hpage), page_items.
    destruct (bool_decide _); [intros [= <-]; by exists k|].
    rewrite take_take_drop.
    replace (100 * k + 100)%nat with (100 * S k)%nat by lia.
    destruct (_ >=? _); [intros [= <-]; by exists (S k)|].
    replace (Z.of_nat (100 * k) + 100) with (Z.of_nat (100 * S k)) by lia.
    apply IH.
Qed.

End IngestFacts.

(** X1. [OptimizedMessageSearchEngine.load_data] against an upstream that
    holds [db] and never refuses three requests in a row : the loop ends
    within [length db + 1] pages, start-up does not raise, and the engine
    holds exactly [db], in order, and is marked loaded. *)
Theorem X1_optimized_load_round_trip (busy : nat → bool)
    (db : list Message) :
  (∀ m, busy m && busy (S m) && busy (S (S m)) = false) →
  ∃ startup,
    OptimizedApp.load_data (S (length db)) (rate_limited busy db)
    = Some startup
    ∧ result startup OptimizedMessageSearchEngine.__init__ = Ok tt
    ∧ final startup OptimizedMessageSearchEngine.__init__
      = optimized_started db
    ∧ messages (optimized_started db) = db
    ∧ loaded (optimized_started db) = true.
Proof.
  intros Hbusy. unfold OptimizedApp.load_data.
  pose proof (IngestFacts.optimized_fetch_pages busy db Hbusy
                (length db) 0 0 ltac:(lia)) as Hfetch.
  change (Z.of_nat (100 * 0)) with 0 in Hfetch.
  change (take (100 * 0) db) with (@nil Message) in Hfetch.
  rewrite Hfetch. eexists. split; [reflexivity|].
  destruct (ResolveFacts.started_fields db) as (Hm & Hl & _).
  repeat split; [|done..].
  unfold result. by rewrite ResolveFacts.load_data_run.
Qed.

(** X1 on [sample_store], with the first request refused. *)
Lemma X1_optimized_load_round_trip_witness :
  (∀ m, (m =? 0)%nat && (S m =? 0)%nat && (S (S m) =? 0)%nat = false)
  ∧ ∃ startup,
      OptimizedApp.load_data 4 (rate_limited (λ n, (n =? 0)%nat) sample_store)
      = Some startup
      ∧ messages (final startup OptimizedMessageSearchEngine.__init__)
        = sample_store.
Proof.
  assert (∀ m, (m =? 0)%nat && (S m =? 0)%nat && (S (S m) =? 0)%nat = false)
    as Hbusy by (intros m; apply andb_false_r).
  split; [exact Hbusy|].
  destruct (X1_optimized_load_round_trip (λ n, (n =? 0)%nat) sample_store
              Hbusy) as (startup & Hload & _ & Hfinal & Hm & _).
  exists startup. split; [exact Hload|]. by rewrite Hfinal.
Defined.

(** X2. [MessageSearchEngine.load_data] (main.py) against a healthy
    upstream whose corpus fits in one page of 100 : the engine holds
    exactly the corpus and is marked loaded. *)
Theorem X2_main_load_single_page (db : list Message) :
  (length db ≤ 100)%nat →
  ∃ startup,
    MainApp.load_data 1 (serving db) = Some startup
    ∧ result startup MessageSearchEngine.__init__ = Ok tt
    ∧ final startup MessageSearchEngine.__init__
      = {| MessageSearchEngine.messages := db;
           MessageSearchEngine.loaded := true |}.
Proof.
  intros Hlen. unfold MainApp.load_data.
  rewrite IngestFacts.main_fetch_step. cbn zeta.
  rewrite (SliceFacts.slice_nonneg db 0 (0 + 100)) by lia.
  change (drop (Z.to_nat 0) db) with db.
  rewrite (take_ge db) by lia. cbn [app].
  destruct (bool_decide_reflect (db = [])) as [->|Hne].
  - by eexists.
  - destruct (Z.geb_spec (Z.of_nat (length db)) (Z.of_nat (length db)));
      [by eexists | lia].
Qed.

(** X2 on [sample_store]. *)
Lemma X2_main_load_single_page_witness :
  (length sample_store ≤ 100)%nat
  ∧ ∃ startup,
      MainApp.load_data 1 (serving sample_store) = Some startup
      ∧ MessageSearchEngine.messages
          (final startup MessageSearchEngine.__init__) = sample_store.
Proof.
  assert (length sample_store ≤ 100)%nat as Hlen by (cbn; lia).
  split; [exact Hlen|].
  destruct (X2_main_load_single_page sample_store Hlen)
    as (startup & Hload & _ & Hfinal).
  exists startup. split; [exact Hload|]. by rewrite Hfinal.
Defined.

(** X3. [MessageSearchEngine.load_data] (main.py) against a healthy
    upstream whose corpus has more than 100 records : the statements
    after the [try] append the page a second time, so the stored messages
    begin with the first 100 records twice; with at most 200 records
    nothing else is stored, and the records from position 100 on are
    never fetched. Start-up still ends and marks the engine loaded. *)
Theorem X3_main_load_repeats_pages (db : list Message) :
  (100 < length db)%nat →
  ∃ startup rest,
    MainApp.load_data (S (length db)) (serving db) = Some startup
    ∧ result startup MessageSearchEngine.__init__ = Ok tt
    ∧ MessageSearchEngine.messages
        (final startup MessageSearchEngine.__init__)
      = take 100 db ++ take 100 db ++ rest
    ∧ MessageSearchEngine.loaded
        (final startup MessageSearchEngine.__init__) = true
    ∧ ((length db ≤ 200)%nat → rest = []).
Proof.
  intros Hlen. unfold MainApp.load_data.
  rewrite IngestFacts.main_fetch_step. cbn zeta.
  rewrite (SliceFacts.slice_nonneg db 0 (0 + 100)) by lia.
  change (drop (Z.to_nat 0) db) with db.
  change (Z.to_nat (0 + 100 - 0)) with 100%nat. cbn [app].
  assert (length (take 100 db) = 100%nat) as Hpage
    by (rewrite length_take; lia).
  rewrite bool_decide_eq_false_2
    by (intros Hnil; by rewrite Hnil in Hpage).
  destruct (Z.geb_spec (Z.of_nat (length (take 100 db)))
              (Z.of_nat (length db))); [lia|].
  destruct (Z.geb_spec (Z.of_nat (length (take 100 db ++ take 100 db)))
              (Z.of_nat (length db))) as [Hge|Hlt].
  - eexists _, []. rewrite app_nil_r. by repeat split.
  - rewrite length_app, Hpage in Hlt.
    destruct (length db) as [|fuel] eqn:Hdb; [lia|].
    destruct (IngestFacts.main_fetch_extends db fuel
                (take 100 db ++ take 100 db) 1 (0 + 100 + 100))
      as [rest Hrest]; [rewrite length_app, Hpage; lia|].
    rewrite Hrest. eexists _, rest. cbn [mbind option_bind].
    rewrite <- app_assoc. repeat split. lia.
Qed.

(** X3 on a corpus of 150 records : 200 messages are stored. *)
Lemma X3_main_load_repeats_pages_witness :
  (100 < length (replicate 150 (record "Sophia" "Book a hotel in Paris")))%nat
  ∧ ∃ startup,
      MainApp.load_data 151
        (serving (replicate 150 (record "Sophia" "Book a hotel in Paris")))
      = Some startup
      ∧ length (MessageSearchEngine.messages
                  (final startup MessageSearchEngine.__init__)) = 200%nat.
Proof.
  assert (100 < length (replicate 150
                          (record "Sophia" "Book a hotel in Paris")))%nat
    as Hlen by (rewrite length_replicate; lia).
  split; [exact Hlen|].
  destruct (X3_main_load_repeats_pages _ Hlen)
    as (startup & rest & Hload & _ & Hm & _ & Hrest).
  rewrite length_replicate in Hload, Hrest.
  exists startup. split; [exact Hload|].
  rewrite Hm, (Hrest ltac:(lia)), app_nil_r, length_app, length_take,
    length_replicate. lia.
Defined.



(** X5. A first reply with an error status (neither 200 nor the retried
    403 and 400) ends the loading of the optimized service at once : the
    engine starts empty but loaded, and every search returns no records
    instead of failing. *)
Theorem X5_optimized_failed_upstream (client : Upstream) (r : Response)
    (fuel : nat) (query : string) (page limit t0 t1 : Z) :
  client 0%nat 0 100 = Some r →
  status_code r ≠ 200 → status_code r ≠ 403 → status_code r ≠ 400 →
  ∃ startup response,
    OptimizedApp.load_data (S fuel) client = Some startup
    ∧ final startup OptimizedMessageSearchEngine.__init__
      = optimized_started []
    ∧ loaded (optimized_started []) = true
    ∧ result (search_fast query page limit t0 t1) (optimized_started [])
      = Ok response
    ∧ total response = 0 ∧ items response = [].
Proof.
  intros Hr H200 H403 H400. unfold OptimizedApp.load_data.
  cbn [OptimizedApp.fetch_loop OptimizedApp.fetch_page]. rewrite Hr.
  rewrite (proj2 (Z.eqb_neq _ _) H200), (proj2 (Z.eqb_neq _ _) H403),
    (proj2 (Z.eqb_neq _ _) H400). cbn.
  eexists _, _. split; [reflexivity|].
  unfold result. rewrite RunFacts.started_search_fast_run.
  assert (fast_records [] query = []) as ->
    by (unfold fast_records; by destruct (blank query)).
  cbn [fst]. split; [reflexivity|]. split; [reflexivity|].
  split; [reflexivity|]. cbn [items paginated]. unfold PyList.slice.
  by rewrite drop_nil, take_nil.
Qed.

(** X5 for an upstream that answers 500. *)
Lemma X5_optimized_failed_upstream_witness :
  ∃ startup,
    OptimizedApp.load_data 1
      (λ _ _ _, Some {| status_code := 500; json := None |}) = Some startup
    ∧ final startup OptimizedMessageSearchEngine.__init__
      = optimized_started [].
Proof.
  destruct (X5_optimized_failed_upstream
              (λ _ _ _, Some {| status_code := 500; json := None |})
              {| status_code := 500; json := None |} 0 "paris" 1 10 0 0
              eq_refl ltac:(done) ltac:(done) ltac:(done))
    as (startup & _ & Hload & Hfinal & _).
  exists startup. by split.
Defined.

(** * Further properties : the endpoints *)

Module AppFacts.
Import OptimizedApp.

Lemma slice_length {A} (l : list A) (a b : Z) :
  0 ≤ a ≤ b →
  Z.of_nat (length (PyList.slice l a b))
  = Z.max 0 (Z.min (b - a) (Z.of_nat (length l) - a)).
Proof.
  intros Hab. rewrite SliceFacts.slice_nonneg by done.
  rewrite length_take, length_drop. lia.
Qed.

Lemma counter_run (key : string) (v : Z) (a : app) :
  request_counter a !! key = Some v → counter key a = (Ok v, a).
Proof. intros Hv. unfold counter. by rewrite Hv. Qed.






End AppFacts.





(** X8. [GET /search] of main.py, for parameters that meet the declared
    constraints : 503 before start-up; after start-up the response of
    [search] on what was loaded, with at most [limit] items, [limit] being
    at most 100; no request raises and the engine is left as it was. *)
Theorem X8_main_get_search (client : Upstream) (fuel : nat)
    (startup : Py MessageSearchEngine.self unit) (q : option string)
    (page limit : option Z) (t0 t1 : Z) :
  MainApp.startup_event fuel client = Some startup →
  MainApp.valid_query (default 1 page) (default 10 limit) = true →
  MainApp.get_search q page limit t0 t1 MainApp.search_engine
  = (Ok MainApp.ServiceUnavailable, MainApp.search_engine)
  ∧ ∃ fetched r,
      MainApp.fetch_loop fuel client 0 0 [] = Some fetched
      ∧ (startup ;; MainApp.get_search q page limit t0 t1)
          MainApp.search_engine
        = (Ok (MainApp.Found r), main_started fetched)
      ∧ result (MessageSearchEngine.search (default EmptyString q)
                  (default 1 page) (default 10 limit) t0 t1)
          (main_started fetched) = Ok r
      ∧ Z.of_nat (length (items r)) ≤ default 10 limit ≤ 100.
Proof.
  intros Hstart Hvalid. split.
  - unfold MainApp.get_search. by rewrite Hvalid.
  - unfold MainApp.startup_event, MainApp.load_data in Hstart.
    destruct (MainApp.fetch_loop fuel client 0 0 []) as [fetched|]; [|done].
    injection Hstart as <-.
    exists fetched,
      (paginated
         (if blank (default EmptyString q) then fetched
          else List.filter (matches (normalized (default EmptyString q)))
                 fetched)
         (default 1 page) (default 10 limit) t0 t1).
    split; [done|].
    unfold result. rewrite RunFacts.search_run.
    unfold MainApp.get_search. rewrite Hvalid, bind_run.
    change (MessageSearchEngine.load_data fetched MainApp.search_engine)
      with (Ok tt, main_started fetched).
    unfold MainApp.search. rewrite bind_run. unfold attr at 1.
    change (MessageSearchEngine.loaded (main_started fetched)) with true.
    change (MessageSearchEngine.messages (main_started fetched)) with fetched.
    cbn [negb fst]. rewrite bind_run, RunFacts.search_run.
    change (MessageSearchEngine.messages (main_started fetched)) with fetched.
    split; [done|]. split; [done|].
    unfold MainApp.valid_query in Hvalid.
    apply andb_true_iff in Hvalid as [[Hp Hl]%andb_true_iff Hle].
    apply Z.leb_le in Hp, Hl, Hle.
    split; [|done].
    cbn [items paginated]. rewrite AppFacts.slice_length by nia. lia.
Qed.

(** X8 on [sample_store], with the default parameters. *)
Lemma X8_main_get_search_witness :
  ∃ r,
    (MessageSearchEngine.load_data sample_store ;;
     MainApp.get_search None None None 0 0) MainApp.search_engine
    = (Ok (MainApp.Found r), main_started sample_store)
    ∧ Z.of_nat (length (items r)) ≤ 10.
Proof.
  destruct (X8_main_get_search (serving sample_store) 1
              (MessageSearchEngine.load_data sample_store)
              None None None 0 0 eq_refl eq_refl)
    as (_ & fetched & r & Hf & Hr & _ & Hlen & _).
  exists r. split; [|exact Hlen].
  assert (fetched = sample_store) as -> by (by injection Hf).
  exact Hr.
Defined.

(** * Further properties : the indices *)

Module KeyFacts.
Import OptimizedMessageSearchEngine.

Lemma index_append_is_Some (key k : string) (idx : nat)
    (d : gmap string (list nat)) :
  is_Some (index_append key idx d !! k) ↔ is_Some (d !! k) ∨ key = k.
Proof.
  unfold index_append. destruct (d !! key) as [l|] eqn:Hkey.
  - rewrite Hkey. destruct (decide (key = k)) as [<-|Hne].
    + rewrite lookup_insert_eq, Hkey. split; [by right | by eexists].
    + rewrite lookup_insert_ne by done. split; [by left | by intros [?|?]].
  - rewrite lookup_insert_eq. destruct (decide (key = k)) as [<-|Hne].
    + rewrite lookup_insert_eq. split; [by right | by eexists].
    + rewrite !lookup_insert_ne by done.
      split; [by left | by intros [?|?]].
Qed.

Lemma words_is_Some (k : string) (idx : nat) (ws : list string)
    (d : gmap string (list nat)) :
  is_Some (foldl (λ d w, index_append w idx d) d ws !! k)
  ↔ is_Some (d !! k) ∨ k ∈ ws.
Proof.
  revert d. induction ws as [|w ws IH]; intros d; cbn [foldl].
  - split; [by left | by intros [?|?%elem_of_nil]].
  - rewrite IH, index_append_is_Some, elem_of_cons. split.
    + intros [[?|?]|?]; auto.
    + intros [?|[?|?]]; auto.
Qed.

Lemma message_index_is_Some (k : string) (l : list (nat * Message))
    (d : gmap string (list nat)) :
  is_Some (foldl (λ d x, foldl (λ d w, index_append w x.1 d) d (tokens x.2))
             d l !! k)
  ↔ is_Some (d !! k) ∨ ∃ x, x ∈ l ∧ k ∈ tokens x.2.
Proof.
  revert d. induction l as [|x l IH]; intros d; cbn [foldl].
  - split; [by left | by intros [?|(? & ?%elem_of_nil & _)]].
  - rewrite IH, words_is_Some. setoid_rewrite elem_of_cons. split.
    + intros [[?|?]|(y & ? & ?)]; [by left| |]; right;
        [exists x | exists y]; auto.
    + intros [?|(y & [->|?] & ?)]; [by left; left | by left; right|].
      right. by exists y.
Qed.

Lemma user_index_is_Some (k : string) (l : list (nat * Message))
    (d : gmap string (list nat)) :
  is_Some (foldl (λ d x, index_append (PyStr.lower (user_name x.2)) x.1 d)
             d l !! k)
  ↔ is_Some (d !! k) ∨ ∃ x, x ∈ l ∧ PyStr.lower (user_name x.2) = k.
Proof.
  revert d. induction l as [|x l IH]; intros d; cbn [foldl].
  - split; [by left | by intros [?|(? & ?%elem_of_nil & _)]].
  - rewrite IH, index_append_is_Some. setoid_rewrite elem_of_cons. split.
    + intros [[?|?]|(y & ? & ?)]; [by left| |]; right;
        [exists x | exists y]; auto.
    + intros [?|(y & [->|?] & ?)]; [by left; left | by left; right|].
      right. by exists y.
Qed.

(** The two indices of an engine, as folds over the records. *)
Lemma started_indices (store : list Message) :
  message_index (optimized_started store)
  = foldl (λ d x, foldl (λ d w, index_append w x.1 d) d (tokens x.2))
      ∅ (PyList.enumerate store)
  ∧ user_index (optimized_started store)
    = foldl (λ d x, index_append (PyStr.lower (user_name x.2)) x.1 d)
        ∅ (PyList.enumerate store).
Proof.
  unfold optimized_started, final. rewrite ResolveFacts.load_data_run.
  cbn [snd]. unfold built.
  set (s0 := {| messages := store; loaded := _ |}).
  change (messages s0) with store.
  destruct (IndexFacts.index_record_fields (PyList.enumerate store) s0)
    as (_ & _ & Hmi & Hui). cbn zeta in *.
  cbn [message_index user_index]. by rewrite Hmi, Hui.
Qed.

Lemma in_enumerate_snd {A} (l : list A) (m : A) :
  (∃ x, x ∈ PyList.enumerate l ∧ x.2 = m) ↔ m ∈ l.
Proof.
  split.
  - intros ([p m'] & Hin & <-). apply EnumFacts.elem_of_enumerate in Hin.
    by eapply list_elem_of_lookup_2.
  - intros [p Hp]%list_elem_of_lookup. exists (p, m).
    by rewrite EnumFacts.elem_of_enumerate.
Qed.

Lemma started_message_key (store : list Message) (k : string) :
  is_Some (message_index (optimized_started store) !! k)
  ↔ ∃ m, m ∈ store ∧ k ∈ tokens m.
Proof.
  rewrite (proj1 (started_indices store)), message_index_is_Some.
  rewrite lookup_empty. split.
  - intros [[? [=]]|(x & Hin & Hk)]. exists x.2. split; [|done].
    apply in_enumerate_snd. by exists x.
  - intros (m & (x & Hin & <-)%in_enumerate_snd & Hk). right. by exists x.
Qed.

Lemma started_user_key (store : list Message) (k : string) :
  is_Some (user_index (optimized_started store) !! k)
  ↔ ∃ m, m ∈ store ∧ PyStr.lower (user_name m) = k.
Proof.
  rewrite (proj2 (started_indices store)), user_index_is_Some.
  rewrite lookup_empty. split.
  - intros [[? [=]]|(x & Hin & Hk)]. exists x.2. split; [|done].
    apply in_enumerate_snd. by exists x.
  - intros (m & (x & Hin & <-)%in_enumerate_snd & Hk). right. by exists x.
Qed.

(** Position lists built from an enumeration are ascending. *)
Lemma replicate_sorted (n i : nat) : StronglySorted Nat.le (replicate n i).
Proof.
  induction n as [|n IH]; [constructor|]. cbn. constructor; [done|].
  apply Forall_forall. by intros ? [-> _]%elem_of_replicate.
Qed.

Lemma enum_postings_ge (c : Message → nat) (i p : nat) (l : list Message) :
  p ∈ concat (map (λ x, replicate (c x.2) x.1) (enum_from i l)) →
  (i ≤ p)%nat.
Proof.
  intros ([q m] & Hin & [-> _]%elem_of_replicate)%ResolveFacts.elem_of_concat_map.
  by apply EnumFacts.elem_of_enum_from in Hin as [? _].
Qed.

Lemma enum_postings_sorted (c : Message → nat) (i : nat) (l : list Message) :
  StronglySorted Nat.le
    (concat (map (λ x, replicate (c x.2) x.1) (enum_from i l))).
Proof.
  revert i. induction l as [|m l IH]; intros i; [constructor|].
  rewrite EnumFacts.enum_from_cons. cbn [map concat fst snd].
  apply StronglySorted_app_2; [|apply replicate_sorted | apply IH].
  intros x1 x2 [-> _]%elem_of_replicate Hx2%enum_postings_ge.
  unfold Nat.le. lia.
Qed.

Lemma enum_postings_strict (c : Message → nat) (i : nat) (l : list Message) :
  (∀ m, c m ≤ 1)%nat →
  StronglySorted lt
    (concat (map (λ x, replicate (c x.2) x.1) (enum_from i l))).
Proof.
  intros Hc. revert i. induction l as [|m l IH]; intros i; [constructor|].
  rewrite EnumFacts.enum_from_cons. cbn [map concat fst snd].
  specialize (Hc m). destruct (c m) as [|[|n]]; cbn; [apply IH| |lia].
  constructor; [apply IH|]. apply Forall_forall.
  intros p Hp%enum_postings_ge. lia.
Qed.

End KeyFacts.

Module TokenFacts.
Import PyStr.

Lemma no_space_app (a b : string) :
  no_space (a +:+ b) = no_space a && no_space b.
Proof.
  induction a as [|c a IH]; [done|].
  rewrite PyStrFacts.str_app_cons. cbn [no_space].
  by rewrite IH, andb_assoc.
Qed.

Lemma lower_app (a b : string) : lower (a +:+ b) = lower a +:+ lower b.
Proof.
  induction a as [|c a IH]; [done|].
  rewrite PyStrFacts.str_app_cons. cbn [lower].
  by rewrite IH, PyStrFacts.str_app_cons.
Qed.

(** The tokens that [split] returns are not empty and hold no
    whitespace. *)
Lemma split_from_no_space (s w x : string) :
  no_space w = true → x ∈ split_from w s → x ≠ "" ∧ no_space x = true.
Proof.
  revert w. induction s as [|c s IH]; intros w Hw; cbn [split_from].
  - destruct w as [|c' w]; cbn [is_empty]; [by intros ?%elem_of_nil|].
    by intros ->%list_elem_of_singleton.
  - destruct (is_space c) eqn:Hc.
    + destruct w as [|c' w]; cbn [is_empty]; [by apply IH|].
      intros [->|Hx]%elem_of_cons; [done | by apply (IH "")].
    + apply IH. rewrite no_space_app, Hw. cbn [no_space]. by rewrite Hc.
Qed.

(** The tokens of a lower-cased text are lower-cased. *)
Lemma split_from_lower (s w x : string) :
  lower w = w → lower s = s → x ∈ split_from w s → lower x = x.
Proof.
  revert w. induction s as [|c s IH]; intros w Hw Hs; cbn [split_from].
  - destruct w as [|c' w]; cbn [is_empty]; [by intros ?%elem_of_nil|].
    by intros ->%list_elem_of_singleton.
  - cbn [lower] in Hs. injection Hs as Hc Hs.
    destruct (is_space c).
    + destruct w as [|c' w]; cbn [is_empty]; [by apply IH|].
      intros [->|Hx]%elem_of_cons; [done | by apply (IH "")].
    + apply IH; [|done]. rewrite lower_app, Hw. cbn [lower]. by rewrite Hc.
Qed.

Lemma tokens_shape (m : Message) (x : string) :
  x ∈ tokens m → x ≠ "" ∧ no_space x = true ∧ lower x = x.
Proof.
  unfold tokens, split. intros Hx.
  destruct (split_from_no_space _ "" x eq_refl Hx) as [Hne Hsp].
  repeat split; [done..|].
  by apply (split_from_lower (lower (message m)) "" x eq_refl
              (PyStrFacts.lower_idemp _)).
Qed.

End TokenFacts.

(** X9. After start-up, a key is in [message_index] exactly when some
    record has it as a token of its lower-cased message; its position list
    is then non-empty, in non-decreasing order, and holds exactly the
    positions (all in range) of the records with that token. *)
Theorem X9_message_index_entries (store : list Message) (key : string) :
  (is_Some (message_index (optimized_started store) !! key)
   ↔ ∃ m, m ∈ store ∧ key ∈ tokens m)
  ∧ ∀ l, message_index (optimized_started store) !! key = Some l →
         l ≠ [] ∧ StronglySorted Nat.le l
         ∧ ∀ p, p ∈ l ↔ ∃ m, store !! p = Some m ∧ key ∈ tokens m.
Proof.
  split; [apply KeyFacts.started_message_key|]. intros l Hl.
  assert (postings (message_index (optimized_started store)) key = l) as Hpost
    by (unfold postings; by rewrite Hl).
  assert (∀ p, p ∈ l ↔ ∃ m, store !! p = Some m ∧ key ∈ tokens m) as Hel
    by (intros p; rewrite <- Hpost;
        apply ResolveFacts.elem_of_started_message_index).
  split; [|split; [|done]].
  - destruct (proj1 (KeyFacts.started_message_key store key))
      as (m & [p Hp]%list_elem_of_lookup & Hk); [by eexists|].
    intros ->. eapply elem_of_nil, Hel. by exists m.
  - rewrite <- Hpost.
    destruct (ResolveFacts.started_fields store) as (_ & _ & -> & _).
    apply (KeyFacts.enum_postings_sorted (λ m, occurrences key (tokens m)) 0).
Qed.

(** X10. After start-up, a key is in [user_index] exactly when it is the
    lower-cased user name of some record; its position list is then
    non-empty, strictly ascending (no position twice), and holds exactly
    the positions of the records of that user. *)
Theorem X10_user_index_entries (store : list Message) (key : string) :
  (is_Some (user_index (optimized_started store) !! key)
   ↔ ∃ m, m ∈ store ∧ PyStr.lower (user_name m) = key)
  ∧ ∀ l, user_index (optimized_started store) !! key = Some l →
         l ≠ [] ∧ StronglySorted lt l
         ∧ ∀ p, p ∈ l
                ↔ ∃ m, store !! p = Some m ∧ PyStr.lower (user_name m) = key.
Proof.
  split; [apply KeyFacts.started_user_key|]. intros l Hl.
  assert (postings (user_index (optimized_started store)) key = l) as Hpost
    by (unfold postings; by rewrite Hl).
  assert (∀ p, p ∈ l ↔ ∃ m, store !! p = Some m
                            ∧ PyStr.lower (user_name m) = key) as Hel
    by (intros p; rewrite <- Hpost;
        apply ResolveFacts.elem_of_started_user_index).
  split; [|split; [|done]].
  - destruct (proj1 (KeyFacts.started_user_key store key))
      as (m & [p Hp]%list_elem_of_lookup & Hk); [by eexists|].
    intros ->. eapply elem_of_nil, Hel. by exists m.
  - rewrite <- Hpost.
    destruct (ResolveFacts.started_fields store) as (_ & _ & _ & ->).
    erewrite map_ext;
      [apply (KeyFacts.enum_postings_strict
                (λ m, if decide (PyStr.lower (user_name m) = key)
                      then 1%nat else 0%nat) 0)|].
    + intros m. destruct (decide _); lia.
    + intros [p m]. cbn [fst snd]. by destruct (decide _).
Qed.

(** X11. Every key of [message_index] is a non-empty, whitespace-free,
    lower-cased string, and every key of [user_index] is lower-cased. *)
Theorem X11_index_keys_shape (store : list Message) (key : string) :
  (is_Some (message_index (optimized_started store) !! key) →
   key ≠ "" ∧ no_space key = true ∧ PyStr.lower key = key)
  ∧ (is_Some (user_index (optimized_started store) !! key) →
     PyStr.lower key = key).
Proof.
  split.
  - intros (m & _ & Hk)%KeyFacts.started_message_key.
    by apply (TokenFacts.tokens_shape m).
  - intros (m & _ & <-)%KeyFacts.started_user_key.
    apply PyStrFacts.lower_idemp.
Qed.

Module ReloadFacts.
Import OptimizedMessageSearchEngine.

Lemma reloaded_fields (store : list Message) :
  messages (reloaded store) = store
  ∧ (∀ k, postings (message_index (reloaded store)) k
          = postings (message_index (optimized_started store)) k
            ++ postings (message_index (optimized_started store)) k)
  ∧ (∀ k, postings (user_index (reloaded store)) k
          = postings (user_index (optimized_started store)) k
            ++ postings (user_index (optimized_started store)) k).
Proof.
  destruct (ResolveFacts.started_fields store) as (_ & _ & Hmi & Hui).
  unfold reloaded, final. rewrite ResolveFacts.load_data_run.
  cbn [snd]. unfold built.
  set (s0 := {| messages := store; loaded := _ |}).
  change (messages s0) with store.
  destruct (IndexFacts.index_record_fields (PyList.enumerate store) s0)
    as (Hm & _ & Hmi' & Hui'). cbn zeta in *.
  cbn [messages message_index user_index]. rewrite Hm.
  split; [done|]. split; intros k.
  - by rewrite Hmi', IndexFacts.postings_message_index, <- Hmi.
  - by rewrite Hui', IndexFacts.postings_user_index, <- Hui.
Qed.

Lemma reloaded_match_set (store : list Message) (query : string) :
  fast_match_set (reloaded store) query
  = fast_match_set (optimized_started store) query.
Proof.
  destruct (reloaded_fields store) as (Hm & Hmi & Hui).
  destruct (ResolveFacts.started_fields store) as (Hm' & _).
  cbn zeta in Hm'. unfold fast_match_set. rewrite Hm, Hm'.
  destruct (blank query); [done|]. f_equal.
  assert (exact_matches (reloaded store) (normalized query)
          = exact_matches (optimized_started store) (normalized query)) as He.
  { rewrite !ResolveFacts.exact_matches_postings, Hmi, Hui.
    rewrite !list_to_set_app_L. by rewrite !(idemp_L (∪)). }
  unfold matched_indices. by rewrite He, Hm, Hm'.
Qed.

End ReloadFacts.

(** X12. A second [load_data] of the same store on a started engine does
    not clear the indices : every position list of both indices is then
    the old list followed by itself. The set used at lookup hides it :
    [search_fast] returns the same responses as before. *)
Theorem X12_reload_doubles_index_lists (store : list Message)
    (key query : string) (page limit t0 t1 : Z) :
  postings (message_index (reloaded store)) key
  = postings (message_index (optimized_started store)) key
    ++ postings (message_index (optimized_started store)) key
  ∧ postings (user_index (reloaded store)) key
    = postings (user_index (optimized_started store)) key
      ++ postings (user_index (optimized_started store)) key
  ∧ result (search_fast query page limit t0 t1) (reloaded store)
    = result (search_fast query page limit t0 t1) (optimized_started store).
Proof.
  destruct (ReloadFacts.reloaded_fields store) as (Hm & Hmi & Hui).
  split; [apply Hmi|]. split; [apply Hui|].
  unfold result. rewrite !RunFacts.search_fast_run.
  rewrite ReloadFacts.reloaded_match_set, Hm.
  destruct (ResolveFacts.started_fields store) as (-> & _). done.
Qed.

Module AgreeFacts.

Lemma fast_records_no_hit (store : list Message) (query : string) :
  normalized query = "" ∨ exact_count store (normalized query) = 0%nat →
  fast_records store query
  = if blank query then store
    else List.filter (matches (normalized query)) store.
Proof.
  intros Hq. unfold fast_records. rewrite RunFacts.blank_normalized.
  destruct Hq as [->|Hq]; [done|].
  destruct (PyStr.is_empty _); [done|].
  rewrite decide_True; [done|].
  apply CountFacts.positions_where_nil.
  apply length_zero_iff_nil.
  by rewrite (CountFacts.filter_bool _ _ _
                (CountFacts.exact_hit_exact_term (normalized query))).
Qed.

Lemma filter_sublist {A} (f g : A → bool) (l : list A) :
  (∀ x, f x = true → g x = true) →
  sublist (List.filter f l) (List.filter g l).
Proof.
  intros Hfg. induction l as [|x l IH]; [done|]. cbn [List.filter].
  destruct (f x) eqn:Hf.
  - rewrite (Hfg x Hf). by apply sublist_skip.
  - destruct (g x); [by apply sublist_cons | done].
Qed.

Lemma filter_sublist_self {A} (g : A → bool) (l : list A) :
  sublist (List.filter g l) l.
Proof.
  induction l as [|x l IH]; [done|]. cbn [List.filter].
  destruct (g x); [by apply sublist_skip | by apply sublist_cons].
Qed.

Lemma exact_hit_matches (q : string) (m : Message) :
  exact_hit q m = true → matches q m = true.
Proof.
  intros H%CountFacts.exact_hit_exact_term.
  by apply CountFacts.matches_ground_truth, CountFacts.exact_term_ground_truth.
Qed.

Lemma filter_none {A} (P : A → Prop) `{∀ x, Decision (P x)} (l : list A) :
  (∀ x, x ∈ l → ¬ P x) → filter P l = [].
Proof.
  induction l as [|x l IH]; intros Hl; [done|].
  rewrite filter_cons, decide_False by (apply Hl; by left).
  apply IH. intros y Hy. apply Hl. by right.
Qed.

Lemma agree_no_hit (store : list Message) (query : string)
    (page limit t0 t1 : Z) :
  normalized query = "" ∨ exact_count store (normalized query) = 0%nat →
  result (OptimizedMessageSearchEngine.search_fast query page limit t0 t1)
    (optimized_started store)
  = result (MessageSearchEngine.search query page limit t0 t1)
      (main_started store).
Proof.
  intros Hq. unfold result.
  rewrite RunFacts.started_search_fast_run, RunFacts.search_run.
  by rewrite (fast_records_no_hit _ _ Hq).
Qed.

End AgreeFacts.

(** X13. The two engines agree whenever the index has no exact-term hit :
    for a blank query, or when no record has the normalized query as a
    whole token or as its whole lower-cased user name, [search_fast] on a
    started engine returns the very response of [search]. *)
Theorem X13_engines_agree_without_exact_hit (store : list Message)
    (query : string) (page limit t0 t1 : Z) :
  normalized query = "" ∨ exact_count store (normalized query) = 0%nat →
  result (search_fast query page limit t0 t1) (optimized_started store)
  = result (MessageSearchEngine.search query page limit t0 t1)
      (main_started store).
Proof. apply AgreeFacts.agree_no_hit. Qed.

(** X13 on [sample_store] : "pari" is no token and no user name. *)
Lemma X13_engines_agree_without_exact_hit_witness :
  result (search_fast "pari" 1 10 0 0) (optimized_started sample_store)
  = result (MessageSearchEngine.search "pari" 1 10 0 0)
      (main_started sample_store).
Proof.
  apply (X13_engines_agree_without_exact_hit sample_store "pari" 1 10 0 0).
  right. by vm_compute.
Defined.

(** X14. A query of several words never hits [message_index] : when the
    normalized query holds a whitespace character and is not the whole
    lower-cased user name of a record, the index lookup finds nothing and
    [search_fast] returns the response of [search]. *)
Theorem X14_multi_word_query_falls_back (store : list Message)
    (query : string) (page limit t0 t1 : Z) :
  no_space (normalized query) = false →
  (∀ m, m ∈ store → PyStr.lower (user_name m) ≠ normalized query) →
  message_index (optimized_started store) !! normalized query = None
  ∧ result (search_fast query page limit t0 t1) (optimized_started store)
    = result (MessageSearchEngine.search query page limit t0 t1)
        (main_started store).
Proof.
  intros Hsp Hname.
  assert (∀ m, m ∈ store → normalized query ∉ tokens m) as Htok.
  { intros m _ Hin. apply TokenFacts.tokens_shape in Hin as (_ & Hns & _).
    congruence. }
  split.
  - apply eq_None_not_Some.
    intros (m & Hm & Hk)%KeyFacts.started_message_key. by apply (Htok m).
  - apply AgreeFacts.agree_no_hit. right.
    unfold exact_count. rewrite AgreeFacts.filter_none; [done|].
    intros m Hm [Hk|Hk]; [by apply (Htok m) | by apply (Hname m)].
Qed.

(** X14 on [sample_store], for the query "Hotel in". *)
Lemma X14_multi_word_query_falls_back_witness :
  no_space (normalized "Hotel in") = false
  ∧ message_index (optimized_started sample_store) !! normalized "Hotel in"
    = None
  ∧ result (search_fast "Hotel in" 1 10 0 0) (optimized_started sample_store)
    = result (MessageSearchEngine.search "Hotel in" 1 10 0 0)
        (main_started sample_store).
Proof.
  assert (no_space (normalized "Hotel in") = false) as Hsp by reflexivity.
  split; [exact Hsp|].
  apply (X14_multi_word_query_falls_back sample_store "Hotel in" 1 10 0 0 Hsp).
  intros m Hm.
  repeat (apply elem_of_cons in Hm as [->|Hm]; [by vm_compute|]).
  by apply elem_of_nil in Hm.
Defined.

(** X15. What [search_fast] selects is always part of what [search]
    selects : on the same store, the records that [search_fast] paginates
    form a sub-list (same order, some left out) of the records that
    [search] paginates, which form a sub-list of the store. *)
Theorem X15_fast_selection_within_scan (store : list Message)
    (query : string) :
  ∃ fast scan,
    result (OptimizedMessageSearchEngine.filtered_messages query)
      (optimized_started store) = Ok fast
    ∧ result (MessageSearchEngine.filtered_messages query)
        (main_started store) = Ok scan
    ∧ sublist fast scan ∧ sublist scan store.
Proof.
  exists (fast_records store query),
    (if blank query then store
     else List.filter (matches (normalized query)) store).
  destruct (ResolveFacts.started_fields store) as (Hm & _). cbn zeta in Hm.
  split; [|split; [|split]].
  - pose proof (RunFacts.started_deref store query) as Hderef.
    unfold fast_match_set in Hderef. rewrite Hm in Hderef.
    unfold result, OptimizedMessageSearchEngine.filtered_messages,
      fast_records in *.
    destruct (blank query).
    + unfold attr. by rewrite Hm.
    + rewrite bind_run. unfold attr at 1. rewrite bind_run. unfold attr at 1.
      rewrite comprehension_getitem, Hm. fold (normalized query).
      by rewrite Hderef.
  - unfold result, MessageSearchEngine.filtered_messages.
    by destruct (blank query).
  - unfold fast_records. destruct (blank query); [done|].
    destruct (decide _); [done|].
    apply AgreeFacts.filter_sublist, AgreeFacts.exact_hit_matches.
  - destruct (blank query); [done | apply AgreeFacts.filter_sublist_self].
Qed.

(** X16. Page sizes : for a page and a limit of at least 1, the number of
    items returned is [limit] while that many matches remain from
    position [(page - 1) * limit] on, the remainder on the last page, and
    zero beyond it. *)
Theorem X16_page_sizes (s : MessageSearchEngine.self) (store : list Message)
    (query : string) (page limit t0 t1 : Z) :
  1 ≤ page → 1 ≤ limit →
  (∃ r, result (MessageSearchEngine.search query page limit t0 t1) s = Ok r
        ∧ Z.of_nat (length (items r))
          = Z.max 0 (Z.min limit (total r - (page - 1) * limit)))
  ∧ (∃ r, result (search_fast query page limit t0 t1)
            (optimized_started store) = Ok r
          ∧ Z.of_nat (length (items r))
            = Z.max 0 (Z.min limit (total r - (page - 1) * limit))).
Proof.
  intros Hp Hl.
  assert (∀ filtered,
    Z.of_nat (length (items (paginated filtered page limit t0 t1)))
    = Z.max 0 (Z.min limit (total (paginated filtered page limit t0 t1)
                            - (page - 1) * limit))) as Hsize.
  { intros filtered. cbn [items total paginated].
    rewrite AppFacts.slice_length by nia. f_equal. f_equal. lia. }
  split; eexists; (split; [|apply Hsize]); unfold result.
  - by rewrite RunFacts.search_run.
  - by rewrite RunFacts.started_search_fast_run.
Qed.

(** X16 on [sample_store] : the second page of two holds one record. *)
Lemma X16_page_sizes_witness :
  1 ≤ 2 ∧ 1 ≤ 2
  ∧ ∃ r, result (MessageSearchEngine.search "" 2 2 0 0)
           (main_started sample_store) = Ok r
         ∧ Z.of_nat (length (items r)) = 1.
Proof.
  assert (1 ≤ 2) as H by lia. split; [exact H|]. split; [exact H|].
  destruct (X16_page_sizes (main_started sample_store) sample_store
              "" 2 2 0 0 H H) as [(r & Hr & Hlen) _].
  exists r. split; [exact Hr|]. rewrite Hlen.
  revert Hr. unfold result. rewrite RunFacts.search_run.
  intros [= <-]. by vm_compute.
Defined.

(** * Further properties : the statistics *)

Module StatsFacts.

Lemma sorted_strings_perm (X : gset string) : sorted_strings X ≡ₚ elements X.
Proof. apply merge_sort_Permutation. Qed.

Lemma elem_of_sorted_strings (X : gset string) (u : string) :
  u ∈ sorted_strings X ↔ u ∈ X.
Proof. by rewrite sorted_strings_perm, elem_of_elements. Qed.

Lemma sorted_strings_NoDup (X : gset string) : NoDup (sorted_strings X).
Proof. rewrite sorted_strings_perm. apply NoDup_elements. Qed.

Lemma sorted_strings_length (X : gset string) :
  length (sorted_strings X) = size X.
Proof. by rewrite sorted_strings_perm. Qed.

Lemma sorted_strings_sorted (X : gset string) :
  StronglySorted String.le (sorted_strings X).
Proof. apply StronglySorted_merge_sort; apply _. Qed.

Lemma size_list_to_set_le (l : list string) :
  (size (list_to_set l : gset string) ≤ length l)%nat.
Proof.
  apply submseteq_length, NoDup_submseteq; [apply NoDup_elements|].
  intros x. by rewrite elem_of_elements, elem_of_list_to_set.
Qed.

Lemma started_dom (store : list Message) :
  dom (OptimizedMessageSearchEngine.message_index (optimized_started store))
  = all_tokens store.
Proof.
  apply set_eq. intros k.
  rewrite elem_of_dom, KeyFacts.started_message_key.
  unfold all_tokens. rewrite elem_of_list_to_set, list_elem_of_bind.
  split; intros (m & ? & ?); by exists m.
Qed.

End StatsFacts.

(** X17. [GET /stats] of main.py once the engine is loaded : it leaves the
    engine as it was, reports the number of stored messages, and lists
    the user names of the store in ascending order without repeats;
    [unique_users] is the length of that list and never exceeds
    [total_messages]. *)
Theorem X17_main_stats (s : MessageSearchEngine.self) :
  MessageSearchEngine.loaded s = true →
  ∃ st,
    MainApp.stats s = (Ok (MainApp.Loaded st), s)
    ∧ MainApp.total_messages st
      = Z.of_nat (length (MessageSearchEngine.messages s))
    ∧ MainApp.unique_users st = Z.of_nat (length (MainApp.users st))
    ∧ MainApp.unique_users st ≤ MainApp.total_messages st
    ∧ StronglySorted String.le (MainApp.users st)
    ∧ NoDup (MainApp.users st)
    ∧ ∀ u, u ∈ MainApp.users st
           ↔ ∃ m, m ∈ MessageSearchEngine.messages s ∧ user_name m = u.
Proof.
  intros Hl. eexists. split.
  - unfold MainApp.stats. rewrite bind_run. unfold attr at 1.
    rewrite Hl. cbn [negb]. reflexivity.
  - cbn [MainApp.total_messages MainApp.unique_users MainApp.users].
    split; [done|]. split; [by rewrite StatsFacts.sorted_strings_length|].
    split.
    { pose proof (StatsFacts.size_list_to_set_le
                    (user_name <$> MessageSearchEngine.messages s)) as Hle.
      rewrite length_fmap in Hle. lia. }
    split; [apply StatsFacts.sorted_strings_sorted|].
    split; [apply StatsFacts.sorted_strings_NoDup|].
    intros u. rewrite StatsFacts.elem_of_sorted_strings, elem_of_list_to_set,
      list_elem_of_fmap.
    split; intros (m & ? & ?); by exists m.
Qed.

(** X17 on [sample_store]. *)
Lemma X17_main_stats_witness :
  ∃ st,
    MainApp.stats (main_started sample_store)
    = (Ok (MainApp.Loaded st), main_started sample_store)
    ∧ MainApp.users st = ["Armand"; "Layla"; "Sophia"].
Proof.
  destruct (X17_main_stats (main_started sample_store) eq_refl)
    as (st & Hst & _).
  exists st. split; [exact Hst|].
  revert Hst. intros [= <-]. by vm_compute.
Defined.

(** X18. [GET /stats] and [GET /metrics] of the optimized service once the
    engine is started from a store : neither changes the module state;
    both report the number of distinct tokens of the store as
    [indexed_terms] and the two request counters as they stand, and the
    number of stored messages. *)
Theorem X18_optimized_stats_and_metrics (a : OptimizedApp.app)
    (store : list Message) (t s : Z) :
  counters a t s →
  OptimizedApp.search_engine a = optimized_started store →
  (∃ st,
     OptimizedApp.stats a = (Ok (OptimizedApp.Loaded st), a)
     ∧ OptimizedApp.total_messages st = Z.of_nat (length store)
     ∧ OptimizedApp.unique_users st = Z.of_nat (size (user_names store))
     ∧ OptimizedApp.indexed_terms st = Z.of_nat (size (all_tokens store))
     ∧ OptimizedApp.requests_served st = t
     ∧ OptimizedApp.search_requests st = s)
  ∧ (∃ mt,
       OptimizedApp.metrics a = (Ok mt, a)
       ∧ OptimizedApp.total_requests mt = t
       ∧ OptimizedApp.metrics_search_requests mt = s
       ∧ OptimizedApp.messages_in_memory mt = Z.of_nat (length store)
       ∧ OptimizedApp.metrics_indexed_terms mt
         = Z.of_nat (size (all_tokens store))).
Proof.
  intros [Ht Hs] He.
  destruct (ResolveFacts.started_fields store) as (Hm & Hl & _).
  cbn zeta in Hm, Hl.
  assert (size (message_index (optimized_started store))
          = size (all_tokens store)) as Hsize
    by (by rewrite <- StatsFacts.started_dom, size_dom).
  split; eexists.
  - split.
    + unfold OptimizedApp.stats. rewrite bind_run. unfold attr at 1.
      rewrite He, Hl. cbn [negb].
      rewrite bind_run. unfold attr at 1. rewrite bind_run. unfold attr at 1.
      rewrite bind_run, (AppFacts.counter_run _ _ _ Ht).
      rewrite bind_run, (AppFacts.counter_run _ _ _ Hs).
      rewrite bind_run. unfold attr at 1. rewrite He, Hm, Hl. reflexivity.
    + cbn. by rewrite Hsize.
  - split.
    + unfold OptimizedApp.metrics.
      rewrite bind_run, (AppFacts.counter_run _ _ _ Ht).
      rewrite bind_run, (AppFacts.counter_run _ _ _ Hs).
      rewrite bind_run. unfold attr at 1. rewrite bind_run. unfold attr at 1.
      rewrite He, Hm. reflexivity.
    + cbn. by rewrite Hsize.
Qed.

(** X18 on the service started from [sample_store], before any search. *)
Lemma X18_optimized_stats_and_metrics_witness :
  ∃ st,
    OptimizedApp.stats
      {| OptimizedApp.search_engine := optimized_started sample_store;
         OptimizedApp.request_counter :=
           OptimizedApp.request_counter OptimizedApp.initial |}
    = (Ok (OptimizedApp.Loaded st),
       {| OptimizedApp.search_engine := optimized_started sample_store;
          OptimizedApp.request_counter :=
            OptimizedApp.request_counter OptimizedApp.initial |})
    ∧ OptimizedApp.indexed_terms st = 11
    ∧ OptimizedApp.requests_served st = 0.
Proof.
  destruct (X18_optimized_stats_and_metrics
              {| OptimizedApp.search_engine := optimized_started sample_store;
                 OptimizedApp.request_counter :=
                   OptimizedApp.request_counter OptimizedApp.initial |}
              sample_store 0 0 (conj eq_refl eq_refl) eq_refl)
    as [(st & Hst & _ & _ & Hterms & Hserved & _) _].
  exists st. split; [exact Hst|]. split; [|exact Hserved].
  rewrite Hterms. by vm_compute.
Defined.



(** X20. Partial ingestion in the optimized service : against an upstream
    that serves [db] but may refuse any of the requests, what [load_data]
    collects is always a run of whole pages from the start of [db] (a
    prefix of [db] in order, nothing twice, nothing skipped), and the loop
    ends within [length db + 1] pages. *)
Theorem X20_optimized_partial_load_is_prefix (busy : nat → bool)
    (db : list Message) :
  ∃ fetched j,
    OptimizedApp.fetch_loop (S (length db)) (rate_limited busy db) 0 0 []
    = Some fetched
    ∧ fetched = take (100 * j) db.
Proof.
  destruct (IngestFacts.optimized_fetch_terminates (rate_limited busy db)
              (Z.of_nat (length db))) with (fuel := length db)
    (all_messages := @nil Message) (n := 0%nat) (skip := 0)
    as [fetched Hfetched].
  - intros n skip r d. unfold rate_limited.
    destruct (busy n); intros [= <-]; [done|]. by intros [= <-].
  - cbn [length]. lia.
  - pose proof (IngestFacts.optimized_fetch_prefix busy db (S (length db))
                  0 0 fetched Hfetched) as [j Hj].
    by exists fetched, j.
Qed.

(** X21. When the first request of main.py raises, is answered with a
    status other than 200, or carries a body that is not JSON, loading
    stops at once : the engine starts empty but loaded, and every search
    returns no records instead of failing. *)
Theorem X21_main_failed_upstream (client : Upstream) (fuel : nat)
    (query : string) (page limit t0 t1 : Z) :
  client 0%nat 0 100 = None
  ∨ (∃ r, client 0%nat 0 100 = Some r
          ∧ (status_code r ≠ 200 ∨ json r = None)) →
  ∃ startup response,
    MainApp.load_data (S fuel) client = Some startup
    ∧ startup MessageSearchEngine.__init__ = (Ok tt, main_started [])
    ∧ MessageSearchEngine.loaded (main_started []) = true
    ∧ result (MessageSearchEngine.search query page limit t0 t1)
        (main_started []) = Ok response
    ∧ total response = 0 ∧ items response = [].
Proof.
  intros Hfail.
  assert (MainApp.fetch_loop (S fuel) client 0 0 [] = Some []) as Hfetch.
  { cbn [MainApp.fetch_loop].
    destruct Hfail as [->|(r & -> & [Hs|Hj])]; [done| |].
    - by rewrite (proj2 (Z.eqb_neq _ _) Hs).
    - rewrite Hj. by destruct (negb _). }
  unfold MainApp.load_data. rewrite Hfetch.
  eexists _, _. split; [reflexivity|]. split; [reflexivity|].
  split; [reflexivity|].
  unfold result. rewrite RunFacts.search_run. cbn [fst].
  assert ((if blank query then MessageSearchEngine.messages (main_started [])
           else List.filter (matches (normalized query))
                  (MessageSearchEngine.messages (main_started []))) = [])
    as -> by (by destruct (blank query)).
  split; [reflexivity|]. split; [reflexivity|].
  cbn [items paginated]. unfold PyList.slice.
  by rewrite drop_nil, take_nil.
Qed.

(** X21 for an upstream whose every request raises. *)
Lemma X21_main_failed_upstream_witness :
  ∃ startup,
    MainApp.load_data 1 (λ _ _ _, None) = Some startup
    ∧ startup MessageSearchEngine.__init__ = (Ok tt, main_started []).
Proof.
  destruct (X21_main_failed_upstream (λ _ _ _, None) 0 "paris" 1 10 0 0
              (or_introl eq_refl)) as (startup & _ & Hload & Hrun & _).
  by exists startup.
Defined.

(** * Further properties : what a response can hold *)

Module SoundFacts.

Lemma slice_sublist {A} (l : list A) (a b : Z) :
  sublist (PyList.slice l a b) l.
Proof.
  unfold PyList.slice. etrans; [apply sublist_take | apply sublist_drop].
Qed.

Lemma elem_of_filter_bool {A} (f : A → bool) (l : list A) (x : A) :
  x ∈ List.filter f l ↔ x ∈ l ∧ f x = true.
Proof. by rewrite !list_elem_of_In, filter_In. Qed.

(** The records selected for a non-blank query all match it. *)
Lemma fast_records_match (store : list Message) (query : string) (m : Message) :
  normalized query ≠ "" → m ∈ fast_records store query →
  m ∈ store ∧ matches (normalized query) m = true.
Proof.
  intros Hq. unfold fast_records. rewrite (RunFacts.blank_false _ Hq).
  destruct (decide _); intros [Hm Hf]%elem_of_filter_bool; [done|].
  split; [done | by apply AgreeFacts.exact_hit_matches].
Qed.

Lemma fast_records_nil (store : list Message) (query : string) :
  fast_records store query = []
  ↔ (if blank query then store
     else List.filter (matches (normalized query)) store) = [].
Proof.
  unfold fast_records. destruct (blank query); [done|].
  destruct (decide _) as [He|He]; [done|].
  split; intros Hnil.
  - by apply CountFacts.positions_where_nil in Hnil.
  - pose proof (AgreeFacts.filter_sublist (exact_hit (normalized query))
                  (matches (normalized query)) store
                  (AgreeFacts.exact_hit_matches _)) as Hsub.
    rewrite Hnil in Hsub. by apply sublist_nil_r in Hsub.
Qed.

End SoundFacts.

(** X22. A response never holds a record that does not match : for a query
    that is non-empty once normalized and for every page and limit, also
    zero or negative ones, each item returned by [search] and by
    [search_fast] is a stored record that has the normalized query as a
    substring of its lower-cased message or user name. *)
Theorem X22_items_match_the_query (s : MessageSearchEngine.self)
    (store : list Message) (query : string) (page limit t0 t1 : Z) :
  normalized query ≠ "" →
  (∃ r, result (MessageSearchEngine.search query page limit t0 t1) s = Ok r
        ∧ ∀ m, m ∈ items r →
               m ∈ MessageSearchEngine.messages s
               ∧ ground_truth (normalized query) m)
  ∧ (∃ r, result (search_fast query page limit t0 t1)
            (optimized_started store) = Ok r
          ∧ ∀ m, m ∈ items r →
                 m ∈ store ∧ ground_truth (normalized query) m).
Proof.
  intros Hq. split; eexists; unfold result.
  - rewrite RunFacts.search_run, (RunFacts.blank_false _ Hq).
    split; [reflexivity|]. cbn [items paginated]. intros m Hm.
    apply (sublist_subseteq _ _ (SoundFacts.slice_sublist _ _ _)) in Hm.
    apply SoundFacts.elem_of_filter_bool in Hm as [Hin Hf].
    split; [done | by apply CountFacts.matches_ground_truth].
  - rewrite RunFacts.started_search_fast_run.
    split; [reflexivity|]. cbn [items paginated]. intros m Hm.
    apply (sublist_subseteq _ _ (SoundFacts.slice_sublist _ _ _)) in Hm.
    apply (SoundFacts.fast_records_match _ _ _ Hq) in Hm as [Hin Hf].
    split; [done | by apply CountFacts.matches_ground_truth].
Qed.

(** X22 on [sample_store], with a negative limit. *)
Lemma X22_items_match_the_query_witness :
  normalized "Paris" ≠ ""
  ∧ ∃ r, result (search_fast "Paris" 1 (-1) 0 0)
           (optimized_started sample_store) = Ok r
         ∧ ∀ m, m ∈ items r →
                m ∈ sample_store ∧ ground_truth (normalized "Paris") m.
Proof.
  assert (normalized "Paris" ≠ "") as Hq by (by vm_compute).
  split; [exact Hq|].
  exact (proj2 (X22_items_match_the_query (main_started sample_store)
                  sample_store "Paris" 1 (-1) 0 0 Hq)).
Defined.

(** X23. [search_fast] finds something exactly when [search] does : on the
    same store, for every query, the [total] of [search_fast] is zero if
    and only if the [total] of [search] is zero. *)
Theorem X23_fast_empty_iff_scan_empty (store : list Message)
    (query : string) (page limit t0 t1 : Z) :
  ∃ fast scan,
    result (search_fast query page limit t0 t1) (optimized_started store)
    = Ok fast
    ∧ result (MessageSearchEngine.search query page limit t0 t1)
        (main_started store) = Ok scan
    ∧ (total fast = 0 ↔ total scan = 0)
    ∧ total fast ≤ total scan.
Proof.
  eexists _, _. unfold result.
  rewrite RunFacts.started_search_fast_run, RunFacts.search_run.
  split; [reflexivity|]. split; [reflexivity|].
  cbn [total paginated].
  change (MessageSearchEngine.messages (main_started store)) with store.
  split.
  - rewrite !Nat2Z.inj_iff with (m := 0%nat), !length_zero_iff_nil.
    apply SoundFacts.fast_records_nil.
  - apply inj_le, sublist_length. unfold fast_records.
    destruct (blank query); [done|]. destruct (decide _); [done|].
    apply AgreeFacts.filter_sublist, AgreeFacts.exact_hit_matches.
Qed.

(** * Further properties : whitespace around the query *)

Module StripFacts.
Import PyStr.

Lemma all_space_lower (s : string) : all_space (lower s) = all_space s.
Proof.
  induction s as [|c s IH]; [done|]. cbn [lower all_space].
  by rewrite PyStrFacts.is_space_lower_char, IH.
Qed.

Lemma lstrip_app (s b : string) :
  lstrip (s +:+ b) = if all_space s then lstrip b else lstrip s +:+ b.
Proof.
  induction s as [|c s IH]; [done|].
  rewrite PyStrFacts.str_app_cons. cbn [lstrip all_space].
  destruct (is_space c); [exact IH | done].
Qed.

Lemma rstrip_all_space (b : string) : all_space b = true → rstrip b = "".
Proof.
  induction b as [|c b IH]; [done|]. cbn [all_space rstrip].
  intros [Hc Hb]%andb_true_iff. by rewrite (IH Hb), Hc.
Qed.

Lemma rstrip_app_space (s b : string) :
  all_space b = true → rstrip (s +:+ b) = rstrip s.
Proof.
  intros Hb. induction s as [|c s IH].
  - by apply rstrip_all_space.
  - rewrite PyStrFacts.str_app_cons. cbn [rstrip]. by rewrite IH.
Qed.

(** Whitespace around a string does not change what [strip] returns. *)
Lemma strip_padded (a s b : string) :
  all_space a = true → all_space b = true →
  strip (a +:+ s +:+ b) = strip s.
Proof.
  intros Ha Hb. unfold strip. rewrite lstrip_app, Ha, lstrip_app.
  destruct (all_space s) eqn:Hs.
  - rewrite (BlankFacts.all_space_lstrip _ Hb),
      (BlankFacts.all_space_lstrip _ Hs). done.
  - by apply rstrip_app_space.
Qed.

Lemma normalized_padded (a q b : string) :
  all_space a = true → all_space b = true →
  normalized (a +:+ q +:+ b) = normalized q.
Proof.
  intros Ha Hb. unfold normalized.
  rewrite !TokenFacts.lower_app.
  apply strip_padded; by rewrite all_space_lower.
Qed.

End StripFacts.

(** X24. Whitespace around the query is ignored : a query with whitespace
    added before and after it gets, from [search] and from [search_fast]
    and in every engine state, a response that agrees with the response
    for the query itself on every field but the query time. *)
Theorem X24_surrounding_whitespace_ignored (s : MessageSearchEngine.self)
    (s' : self) (before query after : string)
    (page limit t0 t1 t0' t1' : Z) :
  all_space before = true → all_space after = true →
  agree_up_to_time
    (result (MessageSearchEngine.search (before +:+ query +:+ after)
               page limit t0 t1) s)
    (result (MessageSearchEngine.search query page limit t0' t1') s)
  ∧ agree_up_to_time
      (result (search_fast (before +:+ query +:+ after) page limit t0 t1) s')
      (result (search_fast query page limit t0' t1') s').
Proof.
  intros Ha Hb.
  pose proof (StripFacts.normalized_padded before query after Ha Hb) as Hn.
  assert (blank (before +:+ query +:+ after) = blank query) as Hbl
    by (by rewrite !RunFacts.blank_normalized, Hn).
  unfold result. rewrite !RunFacts.search_run, !RunFacts.search_fast_run.
  unfold fast_match_set. rewrite Hbl, Hn. split; [done|].
  cbn [fst]. by destruct (mapM _ _).
Qed.

(** X24 on [sample_store] : "  Paris " is answered as "Paris". *)
Lemma X24_surrounding_whitespace_ignored_witness :
  all_space "  " = true ∧ all_space " " = true
  ∧ agree_up_to_time
      (result (search_fast ("  " +:+ "Paris" +:+ " ") 1 10 0 3)
         (optimized_started sample_store))
      (result (search_fast "Paris" 1 10 5 9) (optimized_started sample_store)).
Proof.
  assert (all_space "  " = true) as Ha by reflexivity.
  assert (all_space " " = true) as Hb by reflexivity.
  split; [exact Ha|]. split; [exact Hb|].
  exact (proj2 (X24_surrounding_whitespace_ignored
                  (main_started sample_store) (optimized_started sample_store)
                  "  " "Paris" " " 1 10 0 3 5 9 Ha Hb)).
Defined.
